(** * Sodex dashboard: the balance aggregator, the positions pager and the
      request cache of [src/lib/sodex-api.ts]

    The development embeds the TypeScript functions of [sodex-api.ts] as
    Rocq functions.  JavaScript numbers are IEEE-754 binary64 values
    ([spec_float] at precision 53), strings are sequences of characters with
    codes below 256, [Map<string, number>] is a [gmap string number], a
    promise that settles is the [Result] it settles with, and what the network
    answers to a [fetch] is an explicit input of each function. *)

From Stdlib Require Import ZArith Bool List Ascii String Lia.
From Stdlib Require Import Floats.SpecFloat.
From stdpp Require Import gmap strings list fin_maps.

Local Open Scope Z_scope.

(** ** Strings *)

Module JSString.

(** [s.startsWith(p)] *)
Fixpoint startsWith (s p : string) {struct p} : bool :=
  match p, s with
  | EmptyString, _ => true
  | String a p', String b s' => Ascii.eqb b a && startsWith s' p'
  | String _ _, EmptyString => false
  end.

(** [s.slice(start)] for a start index within the string or past its end. *)
Fixpoint slice (start : nat) (s : string) : string :=
  match start, s with
  | O, _ => s
  | S n, String _ r => slice n r
  | S _, EmptyString => EmptyString
  end.

(** [s.split(sep)[0]]: the characters before the first [sep], all of [s]
    when it holds none. *)
Fixpoint split_head (sep : ascii) (s : string) : string :=
  match s with
  | String c r => if Ascii.eqb c sep then EmptyString else String c (split_head sep r)
  | EmptyString => EmptyString
  end.

(** [s.replace(/^[vw]/, '')] *)
Definition replace_leading_vw (s : string) : string :=
  match s with
  | String c r => if (Ascii.eqb c "v" || Ascii.eqb c "w")%bool then r else s
  | EmptyString => EmptyString
  end.

(** [s || '0'] on a string: the empty string is falsy. *)
Definition or_zero (s : string) : string :=
  if String.eqb s "" then "0"%string else s.

(** [s || '0'] when the property may be missing. *)
Definition opt_or_zero (s : option string) : string :=
  match s with
  | Some v => or_zero v
  | None => "0"%string
  end.

End JSString.

Import JSString.

(** ** JavaScript numbers *)

Module JSNumber.

Definition prec : Z := 53.
Definition emax : Z := 1024.

(** The type [number]: binary64 with a single NaN. *)
Definition number : Type := spec_float.

Definition zero : number := S754_zero false.
Definition NaN : number := S754_nan.

(** [a + b], [a * b] and [a > b] of the language. *)
Definition add (a b : number) : number := SFadd prec emax a b.
Definition mul (a b : number) : number := SFmul prec emax a b.
Definition gtb (a b : number) : bool := SFltb b a.

(** [a === b] on numbers: NaN differs from itself, the two zeros agree. *)
Definition strict_eqb (a b : number) : bool := SFeqb a b.

Definition is_nan (a : number) : bool :=
  match a with S754_nan => true | _ => false end.

(** Truthiness of a number: [0], [-0] and [NaN] are falsy. *)
Definition truthy (a : number) : bool :=
  match a with
  | S754_zero _ | S754_nan => false
  | _ => true
  end.

(** *** [parseFloat] on strings *)

(** White space and line terminators among the characters below 256: TAB,
    LF, VT, FF, CR, SP and NBSP. *)
Definition is_white (c : ascii) : bool :=
  let n := Z.of_nat (nat_of_ascii c) in
  ((9 <=? n) && (n <=? 13)) || (n =? 32) || (n =? 160).

Definition digit_of (c : ascii) : option Z :=
  let n := Z.of_nat (nat_of_ascii c) in
  if (48 <=? n) && (n <=? 57) then Some (n - 48) else None.

Fixpoint skip_white (s : string) : string :=
  match s with
  | String c r => if is_white c then skip_white r else s
  | EmptyString => EmptyString
  end.

(** The longest run of decimal digits at the head of [s]: the value read so
    far, how many digits were read, and what follows them. *)
Fixpoint digits_from (acc : Z) (count : Z) (s : string) : Z * Z * string :=
  match s with
  | String c r =>
      match digit_of c with
      | Some d => digits_from (10 * acc + d) (count + 1) r
      | None => (acc, count, s)
      end
  | EmptyString => (acc, count, s)
  end.

(** An optional sign: [true] for [-]. *)
Definition read_sign (s : string) : bool * string :=
  match s with
  | String "-" r => (true, r)
  | String "+" r => (false, r)
  | _ => (false, s)
  end.

(** The exponent part, when it is complete ([e] or [E], an optional sign
    and at least one digit); otherwise the literal ends before it. *)
Definition read_exponent (s : string) : Z :=
  match s with
  | String c r =>
      if (Ascii.eqb c "e" || Ascii.eqb c "E")%bool then
        let '(neg, r') := read_sign r in
        let '(v, n, _) := digits_from 0 0 r' in
        if n =? 0 then 0 else if neg then - v else v
      else 0
  | EmptyString => 0
  end.

(** The binary64 value nearest to [(-1)^neg * m * 10^e], ties to even. *)
Definition of_decimal (neg : bool) (m : Z) (e : Z) : number :=
  match m with
  | Zpos p =>
      if 0 <=? e
      then binary_round prec emax neg (p * Z.to_pos (10 ^ e))%positive 0
      else SFdiv prec emax (S754_finite neg p 0)
                           (S754_finite false (Z.to_pos (10 ^ (- e))) 0)
  | _ => S754_zero neg
  end.

(** [parseFloat(input)]: skip leading white space, take the longest prefix
    that is a decimal literal (a sign, then [Infinity] or digits with an
    optional fraction and exponent), and round its value to binary64; NaN when
    no prefix is a literal. *)
Definition parseFloat (input : string) : number :=
  let '(neg, s) := read_sign (skip_white input) in
  if startsWith s "Infinity" then S754_infinity neg
  else
    let '(ip, ni, s1) := digits_from 0 0 s in
    match s1 with
    | String "." s2 =>
        let '(m, nf, s3) := digits_from ip 0 s2 in
        if (ni =? 0) && (nf =? 0) then NaN
        else of_decimal neg m (read_exponent s3 - nf)
    | _ =>
        if ni =? 0 then NaN
        else of_decimal neg ip (read_exponent s1)
    end.

(** [parseFloat] applied to a number goes through the number's decimal
    string, which reads back as the same value; only [-0] prints as ["0"]. *)
Definition parseFloat_number (n : number) : number :=
  match n with
  | S754_zero _ => zero
  | _ => n
  end.

End JSNumber.

Import JSNumber.

(** ** Settled promises and thrown values *)

(** What a rejected promise carries. *)
Inductive Error : Type :=
  | Failure (reason : string)            (* what [fetch] or [json()] rejected with *)
  | Thrown (message : string)            (* [new Error(message)] *)
  | BalanceDataError (futuresCode spotCode : number).
      (* [new Error(`Failed to fetch balance data: futures code=..., spot code=...`)] *)

Inductive Result (A : Type) : Type :=
  | Ok (value : A)
  | Err (e : Error).
Arguments Ok {A} value.
Arguments Err {A} e.

(** [await]: go on with the value, or reject with the same error. *)
#[global] Instance Result_bind : MBind Result := fun A B k r =>
  match r with
  | Ok a => k a
  | Err e => Err e
  end.

#[global] Instance Result_ret : MRet Result := fun A a => Ok a.

(** [try { body } catch (err) { console.error(...); throw err; }] *)
Definition try_rethrow {A : Type} (body : Result A) : Result A :=
  match body with
  | Ok a => Ok a
  | Err e => Err e
  end.

(** What reading a property of [undefined] or [null] throws; only its kind
    matters here, not the text of its message. *)
Definition TypeError : Error := Thrown "TypeError: Cannot read properties of undefined".

(** ** The network *)

Module Http.

(** A response: [response.ok], [response.statusText] and what
    [response.json()] settles with. *)
Record Response (B : Type) : Type := mkResponse {
  ok : bool;
  statusText : string;
  json : Result B
}.
Arguments mkResponse {B} ok statusText json.
Arguments ok {B} r.
Arguments statusText {B} r.
Arguments json {B} r.

(** What [fetch(url)] does: its promise rejects, or it resolves with a
    response of any status. *)
Inductive Fetched (B : Type) : Type :=
  | Rejected (reason : string)
  | Responded (r : Response B).
Arguments Rejected {B} reason.
Arguments Responded {B} r.

(** [await fetch(url)] *)
Definition fetch {B : Type} (net : Fetched B) : Result (Response B) :=
  match net with
  | Rejected reason => Err (Failure reason)
  | Responded r => Ok r
  end.

(** A response with a success status and a body that parses. *)
Definition success {B : Type} (body : B) : Fetched B :=
  Responded (mkResponse true "OK" (Ok body)).

(** [data.code !== 0] *)
Definition code_nonzero (code : number) : bool := negb (strict_eqb code zero).

(** The service answers, and its answer is a failure: a status that is not
    a success, or a body that parses and whose [code] is not zero. *)
Definition refuses {B : Type} (code : B -> number) (net : Fetched B) : Prop :=
  exists r, net = Responded r /\
    (ok r = false \/ exists body, json r = Ok body /\ code_nonzero (code body) = true).

End Http.

Import Http.

(** ** Token names *)

(** [normalizeTokenName] of [sodex-api.ts]. *)
Definition normalizeTokenName (coin : string) : string :=
  let normalized := if startsWith coin "v" then slice 1 coin else coin in
  if (String.eqb normalized "SOSO" || String.eqb normalized "WSOSO")%bool then "SOSO"%string
  else if String.eqb normalized "MAG7.ssi" then "MAG7"%string
  else if String.eqb normalized "USDC" then "USDC"%string
  else normalized.

(** The normalization policy in the words of the specification: strip one
    leading [v], then map the aliases. *)
Module NormalizationPolicy.

Definition strip_one_v (coin : string) : string :=
  match coin with
  | String "v" rest => rest
  | _ => coin
  end.

Inductive alias : string -> string -> Prop :=
  | alias_SOSO : alias "SOSO" "SOSO"
  | alias_WSOSO : alias "WSOSO" "SOSO"
  | alias_MAG7 : alias "MAG7.ssi" "MAG7"
  | alias_USDC : alias "USDC" "USDC".

Definition is_alias (name : string) : Prop :=
  name = "SOSO"%string \/ name = "WSOSO"%string \/
  name = "MAG7.ssi"%string \/ name = "USDC"%string.

(** [normalizes coin out]: [out] is what the policy prescribes for [coin]. *)
Inductive normalizes (coin : string) : string -> Prop :=
  | norm_alias out : alias (strip_one_v coin) out -> normalizes coin out
  | norm_keep : ~ is_alias (strip_one_v coin) -> normalizes coin (strip_one_v coin).

End NormalizationPolicy.

(** ** The request cache, as the aggregator sees it *)

(** Modelled from the spec: [cacheManager.deduplicate] of [./cache], which is
    not among the sources.  The specification has it return the producer's
    result: the promise a caller receives settles as the producer run that
    serves its key does, be it the run this call starts, the run already in
    flight, or the earlier run whose value is still live.  The functions below
    take as input what the network answers to the run that serves them. *)
Definition deduplicate {A : Type} (key : string) (run : Result A) : Result A := run.

(** ** Closed positions, page by page *)

Module Positions.

(** The interface declares [position_side] a number; [enrichPositions] tests
    [typeof position.position_side === 'string'], as the service may send
    either. *)
Inductive NumberOrString : Type :=
  | Num (n : number)
  | Str (s : string).

Record PositionData : Type := {
  account_id : number;
  position_id : number;
  user_id : number;
  symbol_id : number;
  margin_mode : number;
  position_side : NumberOrString;
  size : string;
  initial_margin : string;
  avg_entry_price : string;
  cum_open_cost : string;
  cum_trading_fee : string;
  cum_closed_size : string;
  avg_close_price : string;
  max_size : string;
  realized_pnl : string;
  frozen_size : string;
  leverage : number;
  active : bool;
  is_taken_over : bool;
  take_over_price : string;
  created_at : number;
  updated_at : number
}.

(** [data] may be missing or null ([data.data || []]); [next_cursor] is
    optional. *)
Record PositionsResponse : Type := {
  code : number;
  message : string;
  data : option (list PositionData);
  next_cursor : option string
}.

(** Truthiness of [string | undefined]: [undefined] and [''] are falsy. *)
Definition cursor_truthy (c : option string) : bool :=
  match c with
  | Some s => negb (String.eqb s "")
  | None => false
  end.

(** The [cursor] query parameter of the request: appended only when the
    argument is truthy. *)
Definition cursor_param (cursor : option string) : option string :=
  if cursor_truthy cursor then cursor else None.

Section Pager.

(** What the positions endpoint answers to the [n]-th request of a call
    (counted from 0), given the [cursor] parameter of that request. *)
Variable net : nat -> option string -> Fetched PositionsResponse.

Definition fetchPositions (n : nat) (cursor : option string)
  : Result (list PositionData * option string) :=
  response ← fetch (net n (cursor_param cursor));
  if negb (ok response)
  then Err (Thrown ("Failed to fetch positions: " +:+ statusText response))
  else
    data ← json response;
    if code_nonzero (code data)
    then Err (Thrown ("API error: " +:+ message data))
    else Ok (default [] (Positions.data data), next_cursor data).

(** The [while (true)] loop of [fetchAllPositions], run for at most [fuel]
    iterations: [None] when the fuel runs out before the loop leaves.
    [n] counts the requests made so far; the result carries the final
    count. *)
Fixpoint fetchAllPositions_loop (fuel : nat) (n : nat) (cursor : option string)
    (allPositions : list PositionData)
  : option (Result (list PositionData) * nat) :=
  match fuel with
  | O => None
  | S fuel' =>
      match fetchPositions n cursor with
      | Err e => Some (Err e, S n)
      | Ok (positions, nextCursor) =>
          let allPositions := allPositions ++ positions in
          if negb (cursor_truthy nextCursor)
          then Some (Ok allPositions, S n)
          else fetchAllPositions_loop fuel' (S n) nextCursor allPositions
      end
  end.

Definition fetchAllPositions (fuel : nat) : option (Result (list PositionData) * nat) :=
  fetchAllPositions_loop fuel 0%nat None [].

(** The endpoint answers the [n]-th request, made with the cursor parameter
    [param], with a success status and a body of code 0 that holds [items]
    and the cursor [next]. *)
Definition serves (n : nat) (param : option string)
    (items : list PositionData) (next : option string) : Prop :=
  exists r body,
    net n param = Responded r /\ ok r = true /\ json r = Ok body /\
    code_nonzero (code body) = false /\
    items = default [] (data body) /\ next = next_cursor body.

(** [pages n cursor ps]: from the [n]-th request on, made for [cursor], the
    endpoint serves the pages [ps] one after the other, every page but the
    last carrying a cursor to the next, the last carrying none. *)
Inductive pages : nat -> option string -> list (list PositionData) -> Prop :=
  | pages_last n cursor items next :
      serves n (cursor_param cursor) items next ->
      cursor_truthy next = false ->
      pages n cursor [items]
  | pages_next n cursor items next rest :
      serves n (cursor_param cursor) items next ->
      cursor_truthy next = true ->
      pages (S n) next rest ->
      pages n cursor (items :: rest).

End Pager.

End Positions.

(** ** Upstream clients of the aggregator *)

Module Futures.

Record OpenPositionData : Type := {
  symbol : string;
  positionId : string;
  contractType : string;
  positionType : string;
  positionSide : string;
  positionSize : string;
  entryPrice : string;
  liquidationPrice : string;
  isolatedMargin : string;
  leverage : number;
  unrealizedProfit : string;
  realizedProfit : string;
  cumTradingFee : string;
  createdTime : number;
  updatedTime : number
}.

Record BalanceData : Type := {
  coin : string;
  walletBalance : string;
  openOrderMarginFrozen : string;
  availableBalance : string
}.

Record AccountDetailsData : Type := {
  positions : list OpenPositionData;
  balances : list BalanceData;
  accountIsolatedMargin : string;  (* [isolatedMargin] of the account *)
  crossMargin : string;
  availableMarginForIsolated : string;
  availableMarginForCross : string
}.

(** The [data] of a response as it arrives.  The readers of this endpoint
    guard [data], [positions] and [balances] with [?.] and [||]: each may be
    missing. *)
Record AccountDetailsBody : Type := {
  body_positions : option (list OpenPositionData);
  body_balances : option (list BalanceData);
  body_isolatedMargin : string;
  body_crossMargin : string;
  body_availableMarginForIsolated : string;
  body_availableMarginForCross : string
}.

Record AccountDetailsResponse : Type := {
  code : number;
  timestamp : number;
  data : option AccountDetailsBody
}.

(** The [console.log] of the producer reads [data.data.positions.length] and
    [data.data.balances[0]?.walletBalance]: it throws when [data], [positions]
    or [balances] is missing, and otherwise [data.data], now known to hold
    both arrays, is returned. *)
Definition logged (data : option AccountDetailsBody) : Result AccountDetailsData :=
  match data with
  | None => Err TypeError
  | Some d =>
      match body_positions d, body_balances d with
      | Some positions, Some balances =>
          Ok {| positions := positions;
                balances := balances;
                accountIsolatedMargin := body_isolatedMargin d;
                crossMargin := body_crossMargin d;
                availableMarginForIsolated := body_availableMarginForIsolated d;
                availableMarginForCross := body_availableMarginForCross d |}
      | _, _ => Err TypeError
      end
  end.

(** The producer of [fetchAccountDetails]. *)
Definition fetchAccountDetails_producer (net : Fetched AccountDetailsResponse)
  : Result AccountDetailsData :=
  response ← fetch net;
  if negb (ok response)
  then Err (Thrown ("Failed to fetch account details: " +:+ statusText response))
  else
    data ← json response;
    if code_nonzero (code data)
    then Err (Thrown "API error: Failed to fetch account details")
    else logged (Futures.data data).

Definition fetchAccountDetails (userId : string) (net : Fetched AccountDetailsResponse)
  : Result AccountDetailsData :=
  deduplicate ("accountDetails_" +:+ userId) (fetchAccountDetails_producer net).

End Futures.

Module Spot.

Record SpotBalance : Type := {
  coin : string;
  balance : string;
  availableBalance : string
}.

(** The readers of this endpoint guard [data] and [spotBalance] with [?.]
    and [||]: each may be missing. *)
Record SpotData : Type := {
  spotBalance : option (list SpotBalance);
  totalUsdtAmount : number
}.

Record SpotBalanceResponse : Type := {
  code : number;
  data : option SpotData
}.

(** The [console.log] of the producer reads [data.data.spotBalance.length]:
    it throws when [data] or [spotBalance] is missing.  The array it has
    measured is truthy, so that [data.data.spotBalance || []] is that array. *)
Definition logged (data : option SpotData) : Result (list SpotBalance) :=
  match data with
  | None => Err TypeError
  | Some d =>
      match spotBalance d with
      | None => Err TypeError
      | Some tokens => Ok tokens
      end
  end.

Definition fetchSpotBalance_producer (net : Fetched SpotBalanceResponse)
  : Result (list SpotBalance) :=
  response ← fetch net;
  if negb (ok response)
  then Err (Thrown ("Failed to fetch spot balance: " +:+ statusText response))
  else
    data ← json response;
    if code_nonzero (code data)
    then Err (Thrown "API error: Failed to fetch spot balance")
    else logged (Spot.data data).

Definition fetchSpotBalance (userId : string) (net : Fetched SpotBalanceResponse)
  : Result (list SpotBalance) :=
  deduplicate ("spotBalance_" +:+ userId) (fetchSpotBalance_producer net).

End Spot.

Module Mark.

Record MarkPrice : Type := {
  s : string;
  p : string;
  t : number
}.

(** [data] is guarded with [||] where it is returned: it may be missing. *)
Record MarkPriceResponse : Type := {
  code : number;
  data : option (list MarkPrice)
}.

(** The [console.log] of the producer reads [data.data.length]: it throws
    when [data] is missing.  The array it has measured is truthy, so that
    [data.data || []] is that array. *)
Definition logged (data : option (list MarkPrice)) : Result (list MarkPrice) :=
  match data with
  | None => Err TypeError
  | Some quotes => Ok quotes
  end.

Definition fetchMarkPrices_producer (net : Fetched MarkPriceResponse)
  : Result (list MarkPrice) :=
  response ← fetch net;
  if negb (ok response)
  then Err (Thrown ("Failed to fetch mark prices: " +:+ statusText response))
  else
    data ← json response;
    if code_nonzero (code data)
    then Err (Thrown "API error: Failed to fetch mark prices")
    else logged (Mark.data data).

Definition fetchMarkPrices (net : Fetched MarkPriceResponse) : Result (list MarkPrice) :=
  deduplicate "markPrices" (fetchMarkPrices_producer net).

End Mark.

Module Fallback.

Record FallbackMarkPrice : Type := {
  symbol : string;
  markPrice : string
}.

Record FallbackMarkPriceResponse : Type := {
  code : number;
  data : list FallbackMarkPrice
}.

(** The [forEach] that fills [fallbackPrices]: a later quote of a token
    replaces an earlier one. *)
Definition set_price (fallbackPrices : gmap string number) (mp : FallbackMarkPrice)
  : gmap string number :=
  let tokenName := split_head "-" (symbol mp) in
  <[tokenName := parseFloat (markPrice mp)]> fallbackPrices.

Definition fetchFallbackMarkPrices_producer (net : Fetched FallbackMarkPriceResponse)
  : Result (gmap string number) :=
  response ← fetch net;
  if negb (ok response)
  then Ok ∅
  else
    data ← json response;
    if code_nonzero (code data)
    then Ok ∅
    else Ok (fold_left set_price (Fallback.data data) ∅).

Definition fetchFallbackMarkPrices (net : Fetched FallbackMarkPriceResponse)
  : Result (gmap string number) :=
  deduplicate "fallbackMarkPrices" (fetchFallbackMarkPrices_producer net).

End Fallback.

(** ** The balance aggregator *)

(** A promise that rejects, with the time at which it does. *)
Definition rejection {A : Type} (p : nat * Result A) : option (nat * Error) :=
  match p with
  | (at_time, Err e) => Some (at_time, e)
  | (_, Ok _) => None
  end.

(** The sooner of two rejections; of two at the same time, the first. *)
Definition sooner (x y : option (nat * Error)) : option (nat * Error) :=
  match x, y with
  | Some (t, _), Some (t', _) => if (t' <? t)%nat then y else x
  | Some _, None => x
  | None, _ => y
  end.

(** [Promise.all] of four promises, each given with the time at which it
    settles: the four values, or the rejection of the promise that rejects
    first in time. *)
Definition Promise_all4 {A B C D : Type}
    (a : nat * Result A) (b : nat * Result B) (c : nat * Result C) (d : nat * Result D)
  : Result (A * B * C * D) :=
  match sooner (rejection a) (sooner (rejection b) (sooner (rejection c) (rejection d))),
        a, b, c, d with
  | Some (_, e), _, _, _, _ => Err e
  | None, (_, Ok a), (_, Ok b), (_, Ok c), (_, Ok d) => Ok (a, b, c, d)
  | None, (_, Err e), _, _, _ | None, _, (_, Err e), _, _
  | None, _, _, (_, Err e), _ | None, _, _, _, (_, Err e) =>
      Err e   (* not reached: a promise that rejects is the first to, or comes after it *)
  end.

(** [Promise.all] of two promises: the two values, or a rejection; when both
    promises reject, the rejection of the first in the array is taken. *)
Definition Promise_all2 {A B : Type} (a : Result A) (b : Result B) : Result (A * B) :=
  match a, b with
  | Ok a, Ok b => Ok (a, b)
  | Err e, _ => Err e
  | _, Err e => Err e
  end.

Module Total.

Record TotalBalance : Type := {
  spotBalance : number;
  futuresBalance : number;
  totalBalance : number
}.

(** The [forEach] that fills [primaryPriceMap]. *)
Definition set_primary (primaryPriceMap : gmap string number) (mp : Mark.MarkPrice)
  : gmap string number :=
  let symbol := split_head "-" (Mark.s mp) in
  <[symbol := parseFloat (Mark.p mp)]> primaryPriceMap.

Definition primaryPriceMap_of (markPrices : list Mark.MarkPrice) : gmap string number :=
  fold_left set_primary markPrices ∅.

(** The price the [forEach] over the spot tokens settles on: the primary
    entry, the fallback entry when the primary [get] is [undefined]. *)
Definition resolve_price (primaryPriceMap fallbackPrices : gmap string number)
    (normalized : string) : option number :=
  match primaryPriceMap !! normalized with
  | Some price => Some price
  | None => fallbackPrices !! normalized
  end.

(** One turn of the [forEach] over the spot tokens, on the running
    [spotBalanceUSD]; the early [return] leaves it as it is. *)
Definition add_token (primaryPriceMap fallbackPrices : gmap string number)
    (spotBalanceUSD : number) (token : Spot.SpotBalance) : number :=
  let normalized := normalizeTokenName (Spot.coin token) in
  let amount := parseFloat (Spot.balance token) in
  match resolve_price primaryPriceMap fallbackPrices normalized with
  | None => spotBalanceUSD
  | Some price =>
      let usdValue := mul amount price in
      add spotBalanceUSD usdValue
  end.

Definition spotBalanceUSD_of (primaryPriceMap fallbackPrices : gmap string number)
    (spotTokens : list Spot.SpotBalance) : number :=
  fold_left (add_token primaryPriceMap fallbackPrices) spotTokens zero.

(** [accountData.balances[0]?.walletBalance || '0'] *)
Definition walletBalance_or_zero (balances : list Futures.BalanceData) : string :=
  match balances with
  | first :: _ => or_zero (Futures.walletBalance first)
  | [] => "0"%string
  end.

(** What [fetchTotalBalance] computes once the four retrievals are in. *)
Definition aggregate (accountData : Futures.AccountDetailsData)
    (spotTokens : list Spot.SpotBalance) (markPrices : list Mark.MarkPrice)
    (fallbackPrices : gmap string number) : TotalBalance :=
  let primaryPriceMap := primaryPriceMap_of markPrices in
  let spotBalanceUSD := spotBalanceUSD_of primaryPriceMap fallbackPrices spotTokens in
  let futuresBalance := parseFloat (walletBalance_or_zero (Futures.balances accountData)) in
  let totalBalance := add spotBalanceUSD futuresBalance in
  {| spotBalance := spotBalanceUSD;
     futuresBalance := futuresBalance;
     totalBalance := totalBalance |}.

(** The four retrievals of an aggregation. *)
Inductive Retrieval : Type :=
  | AccountDetails
  | SpotBalances
  | MarkPrices
  | FallbackMarkPrices.

(** What the four upstream services answer during one aggregation, and the
    time at which the promise of each retrieval settles. *)
Record Network : Type := {
  accountDetails : Fetched Futures.AccountDetailsResponse;
  spotBalances : Fetched Spot.SpotBalanceResponse;
  markPrices : Fetched Mark.MarkPriceResponse;
  fallbackMarkPrices : Fetched Fallback.FallbackMarkPriceResponse;
  arrival : Retrieval -> nat
}.

Definition fetchTotalBalance_producer (userId : string) (net : Network)
  : Result TotalBalance :=
  try_rethrow (
    '(accountData, spotTokens, markPrices, fallbackPrices) ←
      Promise_all4
        (arrival net AccountDetails,
         Futures.fetchAccountDetails userId (accountDetails net))
        (arrival net SpotBalances,
         Spot.fetchSpotBalance userId (spotBalances net))
        (arrival net MarkPrices,
         Mark.fetchMarkPrices (markPrices net))
        (arrival net FallbackMarkPrices,
         Fallback.fetchFallbackMarkPrices (fallbackMarkPrices net));
    Ok (aggregate accountData spotTokens markPrices fallbackPrices)).



Definition fetchTotalBalance (userId : string) (net : Network) : Result TotalBalance :=
  deduplicate ("totalBalance_" +:+ userId) (fetchTotalBalance_producer userId net).

End Total.

Module Detailed.

(** The two responses are untyped in [fetchDetailedBalance]: what it reaches
    through [?.] or guards with [||] may be missing. *)
Module FuturesJson.
Record Data : Type := {
  balances : option (list Futures.BalanceData)
}.
Record Response : Type := {
  code : number;
  data : option Data
}.
End FuturesJson.

Module SpotJson.
Record TokenData : Type := {
  coin : string;
  balance : string;
  usdValue : option string
}.
Record Data : Type := {
  spotBalance : option (list TokenData);
  totalUsdtAmount : option number
}.
Record Response : Type := {
  code : number;
  data : option Data
}.
End SpotJson.

Record TokenBalance : Type := {
  token : string;
  coin : string;
  balance : number;
  usdValue : number
}.

Record BalanceData : Type := {
  totalUsdValue : number;
  tokens : list TokenBalance;
  futuresBalance : number;
  spotBalance : number
}.

(** [fetch(url).then(r => r.json())] *)
Definition fetch_json {B : Type} (net : Fetched B) : Result B :=
  r ← fetch net; json r.

(** [futuresResponse.data?.balances?.[0]?.walletBalance || '0'] *)
Definition walletBalance_or_zero (data : option FuturesJson.Data) : string :=
  match data with
  | Some d =>
      match FuturesJson.balances d with
      | Some (first :: _) => or_zero (Futures.walletBalance first)
      | _ => "0"%string
      end
  | None => "0"%string
  end.

(** [parseFloat(spotResponse.data?.totalUsdtAmount || '0')] *)
Definition totalUsdtAmount_value (data : option SpotJson.Data) : number :=
  match data with
  | Some d =>
      match SpotJson.totalUsdtAmount d with
      | Some n => if truthy n then parseFloat_number n else parseFloat "0"
      | None => parseFloat "0"
      end
  | None => parseFloat "0"
  end.

(** One turn of the [forEach] over [spotResponse.data.spotBalance]. *)
Definition push_token (tokens : list TokenBalance) (tokenData : SpotJson.TokenData)
  : list TokenBalance :=
  let balance := parseFloat (or_zero (SpotJson.balance tokenData)) in
  if gtb balance zero then
    let cleanCoin := replace_leading_vw (SpotJson.coin tokenData) in
    let usdValue := parseFloat (opt_or_zero (SpotJson.usdValue tokenData)) in
    tokens ++ [ {| token := cleanCoin;
                   coin := SpotJson.coin tokenData;
                   balance := balance;
                   usdValue := if gtb usdValue zero then usdValue else balance |} ]
  else tokens.

Definition tokens_of (data : option SpotJson.Data) : list TokenBalance :=
  match data with
  | Some d =>
      match SpotJson.spotBalance d with
      | Some spotBalance => fold_left push_token spotBalance []
      | None => []
      end
  | None => []
  end.

(** The claim's reading of the tokens array, for comparison with
    [tokens_of]: the tokens kept are those whose parsed balance is positive,
    and each is shown under its coin less one leading [v] or [w], valued at
    the upstream [usdValue] when that parses to a positive number and at its
    balance otherwise. *)
Definition positive_balance (tokenData : SpotJson.TokenData) : bool :=
  gtb (parseFloat (SpotJson.balance tokenData)) zero.

Definition upstream_usdValue (tokenData : SpotJson.TokenData) : option number :=
  match SpotJson.usdValue tokenData with
  | Some u => if gtb (parseFloat u) zero then Some (parseFloat u) else None
  | None => None
  end.

Definition displayed (tokenData : SpotJson.TokenData) : TokenBalance :=
  {| token := replace_leading_vw (SpotJson.coin tokenData);
     coin := SpotJson.coin tokenData;
     balance := parseFloat (SpotJson.balance tokenData);
     usdValue := default (parseFloat (SpotJson.balance tokenData))
                         (upstream_usdValue tokenData) |}.

(** The spot tokens a response lists, none when the list is missing. *)
Definition spot_tokens (spotResponse : SpotJson.Response) : list SpotJson.TokenData :=
  match SpotJson.data spotResponse with
  | Some d => default [] (SpotJson.spotBalance d)
  | None => []
  end.

Definition fetchDetailedBalance_producer
    (futuresNet : Fetched FuturesJson.Response) (spotNet : Fetched SpotJson.Response)
  : Result BalanceData :=
  try_rethrow (
    '(futuresResponse, spotResponse) ←
      Promise_all2 (fetch_json futuresNet) (fetch_json spotNet);
    if (code_nonzero (FuturesJson.code futuresResponse)
        || code_nonzero (SpotJson.code spotResponse))%bool
    then Err (BalanceDataError (FuturesJson.code futuresResponse)
                               (SpotJson.code spotResponse))
    else
      let futuresBalance :=
        parseFloat (walletBalance_or_zero (FuturesJson.data futuresResponse)) in
      let spotBalance := totalUsdtAmount_value (SpotJson.data spotResponse) in
      let tokens := tokens_of (SpotJson.data spotResponse) in
      let totalUsdValue := add spotBalance futuresBalance in
      Ok {| totalUsdValue := totalUsdValue;
            tokens := tokens;
            futuresBalance := futuresBalance;
            spotBalance := spotBalance |}).

Definition fetchDetailedBalance (userId : string)
    (futuresNet : Fetched FuturesJson.Response) (spotNet : Fetched SpotJson.Response)
  : Result BalanceData :=
  deduplicate ("detailedBalance_" +:+ userId)
              (fetchDetailedBalance_producer futuresNet spotNet).

End Detailed.

(** ** The request cache as a state machine *)

Module Cache.

Section Machine.

(** The values the producers resolve with, and the configured TTL. *)
Variable V : Type.
Variable ttl : Z.

(** Modelled from the spec: the cache entry of [./cache], which is not
    among the sources.  Per key the specification gives the states Empty
    (no entry), Pending (a producer run in flight, shared by the callers
    that wait for it) and Fulfilled (a value and its expiry timestamp). *)
Inductive Entry : Type :=
  | Pending (waiters : list nat)
  | Fulfilled (value : V) (expiresAt : Z).

(** Modelled from the spec: the internal table of the cache, together with
    two observations: the keys of the producer runs started so far, and
    what every caller's promise has settled with so far. *)
Record State : Type := mkState {
  table : gmap string Entry;
  invoked : list string;
  settled : list (nat * Result V)
}.

Definition empty : State := mkState ∅ [] [].

(** What happens in the single execution context: a caller calls
    [deduplicate(key, producer)] at time [now], or the producer run in
    flight for [key] resolves or rejects at time [now]. *)
Inductive Event : Type :=
  | Call (key : string) (caller : nat) (now : Z)
  | Resolve (key : string) (value : V) (now : Z)
  | Reject (key : string) (e : Error) (now : Z).

(** Start a producer run for [key] on behalf of [caller]. *)
Definition start (key : string) (caller : nat) (st : State) : State :=
  mkState (<[key := Pending [caller]]> (table st))
          (invoked st ++ [key])
          (settled st).

(** Modelled from the spec: [deduplicate(key, producer)] of [./cache].  A
    live entry is returned without invoking the producer; a call that
    finds a run in flight shares it; otherwise the producer is invoked and
    the entry is (over)written with the pending run. *)
Definition deduplicate (key : string) (caller : nat) (now : Z) (st : State) : State :=
  match table st !! key with
  | Some (Fulfilled value expiresAt) =>
      if now <? expiresAt
      then mkState (table st) (invoked st) (settled st ++ [(caller, Ok value)])
      else start key caller st
  | Some (Pending waiters) =>
      mkState (<[key := Pending (waiters ++ [caller])]> (table st))
              (invoked st) (settled st)
  | None => start key caller st
  end.

Definition deliver (r : Result V) (waiters : list nat) : list (nat * Result V) :=
  map (fun caller => (caller, r)) waiters.

(** Modelled from the spec: on success the result is stored with the
    expiry timestamp now + TTL and handed to every waiting caller. *)
Definition resolve (key : string) (value : V) (now : Z) (st : State) : State :=
  match table st !! key with
  | Some (Pending waiters) =>
      mkState (<[key := Fulfilled value (now + ttl)]> (table st))
              (invoked st)
              (settled st ++ deliver (Ok value) waiters)
  | _ => st
  end.

(** Modelled from the spec: on failure the entry is cleared and the
    failure handed to every waiting caller. *)
Definition reject (key : string) (e : Error) (st : State) : State :=
  match table st !! key with
  | Some (Pending waiters) =>
      mkState (delete key (table st))
              (invoked st)
              (settled st ++ deliver (Err e) waiters)
  | _ => st
  end.

Definition step (st : State) (ev : Event) : State :=
  match ev with
  | Call key caller now => deduplicate key caller now st
  | Resolve key value now => resolve key value now st
  | Reject key e _ => reject key e st
  end.

Definition run (st : State) (evs : list Event) : State := fold_left step evs st.

(** How many producer runs were started for [key]. *)
Definition runs (key : string) (st : State) : nat :=
  length (filter (fun k => k = key) (invoked st)).

(** No live entry for [key] at time [now]: a call then starts a run. *)
Definition vacant (key : string) (now : Z) (st : State) : Prop :=
  match table st !! key with
  | None => True
  | Some (Fulfilled _ expiresAt) => expiresAt <= now
  | Some (Pending _) => False
  end.

(** The event settles the run in flight for [key]. *)
Definition settles (key : string) (ev : Event) : bool :=
  match ev with
  | Call _ _ _ => false
  | Resolve k _ _ | Reject k _ _ => bool_decide (k = key)
  end.

(** The callers that call [deduplicate(key, ...)] in the events. *)
Fixpoint callers_of (key : string) (evs : list Event) : list nat :=
  match evs with
  | [] => []
  | Call k caller _ :: rest =>
      if bool_decide (k = key) then caller :: callers_of key rest
      else callers_of key rest
  | _ :: rest => callers_of key rest
  end.

(** Every call to [key] in the events is made before [deadline]. *)
Definition calls_before (key : string) (deadline : Z) (evs : list Event) : Prop :=
  Forall (fun ev =>
            match ev with
            | Call k _ now => k = key -> now < deadline
            | _ => True
            end) evs.

(** Some producer run among the events settled with [r]. *)
Definition settled_by (evs : list Event) (r : Result V) : Prop :=
  match r with
  | Ok value => exists k now, In (Resolve k value now) evs
  | Err e => exists k now, In (Reject k e now) evs
  end.

(** The key an event is about. *)
Definition key_of (ev : Event) : string :=
  match ev with
  | Call k _ _ | Resolve k _ _ | Reject k _ _ => k
  end.

End Machine.

Arguments Pending {V} waiters.
Arguments Fulfilled {V} value expiresAt.
Arguments Call {V} key caller now.
Arguments Resolve {V} key value now.
Arguments Reject {V} key e now.
Arguments mkState {V} table invoked settled.
Arguments table {V} s.
Arguments invoked {V} s.
Arguments settled {V} s.
Arguments empty {V}.
Arguments start {V} key caller st.
Arguments deduplicate {V} key caller now st.
Arguments deliver {V} r waiters.
Arguments resolve {V} ttl key value now st.
Arguments reject {V} key e st.
Arguments step {V} ttl st ev.
Arguments run {V} ttl st evs.
Arguments runs {V} key st.
Arguments vacant {V} key now st.
Arguments settles {V} key ev.
Arguments callers_of {V} key evs.
Arguments calls_before {V} key deadline evs.
Arguments key_of {V} ev.
Arguments settled_by {V} evs r : simpl never.

End Cache.

(** ** Sample data *)

Module Samples.

Definition position (id : string) (closed : string) : Positions.PositionData :=
  {| Positions.account_id := parseFloat "7";
     Positions.position_id := parseFloat id;
     Positions.user_id := parseFloat "7";
     Positions.symbol_id := parseFloat "1";
     Positions.margin_mode := parseFloat "2";
     Positions.position_side := Positions.Num (parseFloat "2");
     Positions.size := "0";
     Positions.initial_margin := "0";
     Positions.avg_entry_price := "100";
     Positions.cum_open_cost := "100";
     Positions.cum_trading_fee := "0.1";
     Positions.cum_closed_size := closed;
     Positions.avg_close_price := "101";
     Positions.max_size := "1";
     Positions.realized_pnl := "1";
     Positions.frozen_size := "0";
     Positions.leverage := parseFloat "5";
     Positions.active := false;
     Positions.is_taken_over := false;
     Positions.take_over_price := "0";
     Positions.created_at := parseFloat "1700000000000";
     Positions.updated_at := parseFloat "1700000000001" |}.

Definition page (items : list Positions.PositionData) (next : option string)
  : Fetched Positions.PositionsResponse :=
  success {| Positions.code := zero;
             Positions.message := "ok";
             Positions.data := Some items;
             Positions.next_cursor := next |}.

(** A mocked endpoint with two pages: the first request (no cursor) gets two
    items and the cursor ["p2"], the request with cursor ["p2"] gets one item
    and no cursor. *)
Definition two_pages (n : nat) (cursor : option string)
  : Fetched Positions.PositionsResponse :=
  match cursor with
  | None => page [position "1" "1"; position "2" "3"] (Some "p2"%string)
  | Some c =>
      if String.eqb c "p2" then page [position "3" "2"] None
      else Rejected "unknown cursor"
  end.

Definition wallet (amount : string) : Futures.BalanceData :=
  {| Futures.coin := "USDC";
     Futures.walletBalance := amount;
     Futures.openOrderMarginFrozen := "0";
     Futures.availableBalance := amount |}.

Definition account_data (balances : list Futures.BalanceData)
  : Futures.AccountDetailsData :=
  {| Futures.positions := [];
     Futures.balances := balances;
     Futures.accountIsolatedMargin := "0";
     Futures.crossMargin := "0";
     Futures.availableMarginForIsolated := "0";
     Futures.availableMarginForCross := "0" |}.

Definition account (balances : list Futures.BalanceData)
  : Fetched Futures.AccountDetailsResponse :=
  success {| Futures.code := zero;
             Futures.timestamp := parseFloat "1700000000000";
             Futures.data :=
               Some {| Futures.body_positions := Some [];
                       Futures.body_balances := Some balances;
                       Futures.body_isolatedMargin := "0";
                       Futures.body_crossMargin := "0";
                       Futures.body_availableMarginForIsolated := "0";
                       Futures.body_availableMarginForCross := "0" |} |}.

Definition spot_token (coin balance : string) : Spot.SpotBalance :=
  {| Spot.coin := coin; Spot.balance := balance; Spot.availableBalance := balance |}.

Definition spot (tokens : list Spot.SpotBalance) : Fetched Spot.SpotBalanceResponse :=
  success {| Spot.code := zero;
             Spot.data := Some {| Spot.spotBalance := Some tokens;
                                  Spot.totalUsdtAmount := zero |} |}.

Definition quote (s p : string) : Mark.MarkPrice :=
  {| Mark.s := s; Mark.p := p; Mark.t := parseFloat "1700000000000" |}.

Definition marks (quotes : list Mark.MarkPrice) : Fetched Mark.MarkPriceResponse :=
  success {| Mark.code := zero; Mark.data := Some quotes |}.

Definition fallback_quote (symbol markPrice : string) : Fallback.FallbackMarkPrice :=
  {| Fallback.symbol := symbol; Fallback.markPrice := markPrice |}.

Definition fallbacks (quotes : list Fallback.FallbackMarkPrice)
  : Fetched Fallback.FallbackMarkPriceResponse :=
  success {| Fallback.code := zero; Fallback.data := quotes |}.

(** Two units of [vBTC] priced by the primary source, ten of [WSOSO] priced
    by the fallback source, a hundred of [USDC] that neither source prices,
    and a futures wallet of 250.5. *)
(** The four promises settle in the order of the array. *)
Definition in_order (which : Total.Retrieval) : nat :=
  match which with
  | Total.AccountDetails => 1
  | Total.SpotBalances => 2
  | Total.MarkPrices => 3
  | Total.FallbackMarkPrices => 4
  end.

Definition network : Total.Network :=
  {| Total.accountDetails := account [wallet "250.5"];
     Total.spotBalances :=
       spot [spot_token "vBTC" "2"; spot_token "USDC" "100"; spot_token "WSOSO" "10"];
     Total.markPrices := marks [quote "BTC-USD" "50000"; quote "ETH-USD" "3000"];
     Total.fallbackMarkPrices := fallbacks [fallback_quote "SOSO-USD" "0.5"];
     Total.arrival := in_order |}.

(** The sample network with another futures wallet list. *)
Definition with_wallets (balances : list Futures.BalanceData) : Total.Network :=
  {| Total.accountDetails := account balances;
     Total.spotBalances := Total.spotBalances network;
     Total.markPrices := Total.markPrices network;
     Total.fallbackMarkPrices := Total.fallbackMarkPrices network;
     Total.arrival := Total.arrival network |}.

(** The sample network with another answer of the fallback price source. *)
Definition with_fallback (answer : Fetched Fallback.FallbackMarkPriceResponse)
  : Total.Network :=
  {| Total.accountDetails := Total.accountDetails network;
     Total.spotBalances := Total.spotBalances network;
     Total.markPrices := Total.markPrices network;
     Total.fallbackMarkPrices := answer;
     Total.arrival := Total.arrival network |}.

(** The sample network with another answer of the spot balance service. *)
Definition with_spot (answer : Fetched Spot.SpotBalanceResponse) : Total.Network :=
  {| Total.accountDetails := Total.accountDetails network;
     Total.spotBalances := answer;
     Total.markPrices := Total.markPrices network;
     Total.fallbackMarkPrices := Total.fallbackMarkPrices network;
     Total.arrival := Total.arrival network |}.

Definition token_data (coin balance : string) (usdValue : option string)
  : Detailed.SpotJson.TokenData :=
  {| Detailed.SpotJson.coin := coin;
     Detailed.SpotJson.balance := balance;
     Detailed.SpotJson.usdValue := usdValue |}.

Definition detailed_futures : Fetched Detailed.FuturesJson.Response :=
  success {| Detailed.FuturesJson.code := zero;
             Detailed.FuturesJson.data :=
               Some {| Detailed.FuturesJson.balances := Some [wallet "250.5"] |} |}.

(** Four spot tokens: one with an upstream USD value, one without, one with
    a zero balance and one with an empty balance. *)
Definition detailed_spot : Fetched Detailed.SpotJson.Response :=
  success {| Detailed.SpotJson.code := zero;
             Detailed.SpotJson.data :=
               Some {| Detailed.SpotJson.spotBalance :=
                         Some [token_data "vBTC" "2" (Some "100000"%string);
                               token_data "USDC" "0" None;
                               token_data "wSOSO" "10" None;
                               token_data "vETH" "" (Some "5"%string)];
                       Detailed.SpotJson.totalUsdtAmount :=
                         Some (parseFloat "100005") |} |}.

(** The events of a cache of strings: a first call for the mark prices, two
    more while the run is in flight, and traffic on another key. *)
Definition traffic : list (Cache.Event string) :=
  [Cache.Call "markPrices" 2 5;
   Cache.Call "spotBalance_7" 3 6;
   Cache.Call "markPrices" 4 7;
   Cache.Resolve "spotBalance_7" "tokens" 8].

Definition unavailable {B : Type} : Fetched B :=
  Responded (mkResponse false "Service Unavailable" (Err (Failure "Unexpected token <"))).

End Samples.

(** ** Failing and endless pagination *)

Module Paging.

Import Positions.

Section Endpoint.

Variable net : nat -> option string -> Fetched PositionsResponse.

(** The endpoint's answer to the [n]-th request, made with the cursor
    parameter [param], is one [fetchPositions] rejects with [e]: the request
    itself fails, the status is not a success, the body does not parse, or
    the body's code is not zero. *)
Definition fails (n : nat) (param : option string) (e : Error) : Prop :=
  match net n param with
  | Rejected reason => e = Failure reason
  | Responded r =>
      if ok r then
        match json r with
        | Err e' => e = e'
        | Ok body =>
            code_nonzero (code body) = true /\
            e = Thrown ("API error: " +:+ message body)
        end
      else e = Thrown ("Failed to fetch positions: " +:+ statusText r)
  end.

(** [pages_until n cursor ps e]: from the [n]-th request on the endpoint
    serves the pages [ps], each with a cursor to the next, and then answers
    the request after them with a failure [e]. *)
Inductive pages_until : nat -> option string -> list (list PositionData) -> Error -> Prop :=
  | until_fails n cursor e :
      fails n (cursor_param cursor) e ->
      pages_until n cursor [] e
  | until_next n cursor items next rest e :
      serves net n (cursor_param cursor) items next ->
      cursor_truthy next = true ->
      pages_until (S n) next rest e ->
      pages_until n cursor (items :: rest) e.

(** Every request, whatever its cursor, is answered with a page that
    carries a cursor to a further page. *)
Definition endless : Prop :=
  forall n param, exists items next,
    serves net n param items next /\ cursor_truthy next = true.

End Endpoint.

End Paging.

(** ** Quotes and price maps *)

Module Quotes.

(** Whether the character [c] occurs in [s]. *)
Fixpoint has_char (c : ascii) (s : string) : bool :=
  match s with
  | String c' r => Ascii.eqb c' c || has_char c r
  | EmptyString => false
  end.

(** The last element of [l] filed under [k]. *)
Fixpoint last_under {A : Type} (key : A -> string) (k : string) (l : list A) : option A :=
  match l with
  | [] => None
  | x :: rest =>
      match last_under key k rest with
      | Some y => Some y
      | None => if String.eqb (key x) k then Some x else None
      end
  end.

(** The token a primary quote is filed under, and the price it carries. *)
Definition primary_token (mp : Mark.MarkPrice) : string := split_head "-" (Mark.s mp).
Definition primary_price (mp : Mark.MarkPrice) : number := parseFloat (Mark.p mp).

(** The same for a fallback quote. *)
Definition fallback_token (mp : Fallback.FallbackMarkPrice) : string :=
  split_head "-" (Fallback.symbol mp).
Definition fallback_price (mp : Fallback.FallbackMarkPrice) : number :=
  parseFloat (Fallback.markPrice mp).

End Quotes.

(** ** Which answers let a retrieval through *)

Module Answers.






End Answers.

(** ** More sample data *)

Module Endpoints.

(** Two good pages, then a 502 on the third request. *)
Definition breaks_on_third (n : nat) (cursor : option string)
  : Fetched Positions.PositionsResponse :=
  match n with
  | 0%nat => Samples.page [Samples.position "1" "1"] (Some "a"%string)
  | 1%nat => Samples.page [Samples.position "2" "1"] (Some "b"%string)
  | _ => Responded (mkResponse false "Bad Gateway" (Err (Failure "Unexpected token <")))
  end.

(** Every request gets one item and the cursor ["again"]. *)
Definition looping (n : nat) (cursor : option string)
  : Fetched Positions.PositionsResponse :=
  Samples.page [Samples.position "1" "1"] (Some "again"%string).

End Endpoints.

(** ** More of the number type *)

Module JSMath.

(** A small integer literal of the source. *)
Definition of_Z (z : Z) : number := binary_normalize prec emax z 0 false.

(** [a - b], [a / b] and [a < b]. *)
Definition sub (a b : number) : number := SFsub prec emax a b.
Definition div (a b : number) : number := SFdiv prec emax a b.
Definition ltb (a b : number) : bool := SFltb a b.

(** [Math.round(x)]: the nearest integer, a tie going up; an argument
    between -0.5 and -0 gives -0. *)
Definition Math_round (x : number) : number :=
  match x with
  | S754_finite s m e =>
      if 0 <=? e then x
      else
        let q := Z.shiftr (Zpos m) (- e) in
        let rem := Zpos m - Z.shiftl q (- e) in
        let half := Z.shiftl 1 (- e - 1) in
        let n := if s
                 then (if half <? rem then q + 1 else q)
                 else (if half <=? rem then q + 1 else q) in
        match n with
        | Z0 => S754_zero s
        | _ => binary_normalize prec emax (if s then - n else n) 0 false
        end
  | _ => x
  end.

(** The value of a digit in radix 10 or 16. *)
Definition digit_in (radix : Z) (c : ascii) : option Z :=
  let n := Z.of_nat (nat_of_ascii c) in
  if (48 <=? n) && (n <=? 57) then Some (n - 48)
  else if (radix =? 16) && (97 <=? n) && (n <=? 102) then Some (n - 87)
  else if (radix =? 16) && (65 <=? n) && (n <=? 70) then Some (n - 55)
  else None.

(** The longest run of digits of the radix at the head of [s]: the value
    read and the number of digits. *)
Fixpoint digits_in (radix : Z) (acc : Z) (count : Z) (s : string) : Z * Z :=
  match s with
  | String c r =>
      match digit_in radix c with
      | Some d => digits_in radix (radix * acc + d) (count + 1) r
      | None => (acc, count)
      end
  | EmptyString => (acc, count)
  end.

(** [parseInt(input)] with no radix: skip leading white space, read a sign,
    read hexadecimal digits after [0x] or [0X] and decimal digits otherwise,
    as far as they go; NaN when there is no digit. *)
Definition parseInt (input : string) : number :=
  let '(neg, s) := read_sign (skip_white input) in
  let '(radix, digits) :=
    if (startsWith s "0x" || startsWith s "0X")%bool then (16, slice 2 s) else (10, s) in
  let '(value, count) := digits_in radix 0 0 digits in
  if count =? 0 then NaN
  else match value with
       | Zpos p => binary_round prec emax neg p 0
       | _ => S754_zero neg
       end.

(** The key a number stands for in a [Map]: keys are compared by
    SameValueZero, under which [-0] is [0] and NaN is itself. *)
Definition map_key (n : number) : number :=
  match n with
  | S754_zero _ => zero
  | _ => n
  end.

#[global] Instance number_eq_dec : EqDecision number.
Proof. unfold number. solve_decision. Defined.

#[global] Instance number_countable : Countable number.
Proof.
  refine (inj_countable'
            (fun x : number =>
               match x with
               | S754_zero s => inl (inl s)
               | S754_infinity s => inl (inr s)
               | S754_nan => inr (inl tt)
               | S754_finite s m e => inr (inr (s, m, e))
               end)
            (fun y =>
               match y with
               | inl (inl s) => S754_zero s
               | inl (inr s) => S754_infinity s
               | inr (inl _) => S754_nan
               | inr (inr (s, m, e)) => S754_finite s m e
               end) _).
  intros []; reflexivity.
Defined.

End JSMath.

Import JSMath.

(** ** Symbols and closed positions *)

Module Symbols.

(** The unknown further properties of a symbol are left out. *)
Record SymbolData : Type := {
  symbolID : number;
  name : string;
  baseCoin : string;
  quoteCoin : option string
}.

(** [data] is an object; it is given by its entries in property order, the
    order of [Object.values]. *)
Record SymbolsResponse : Type := {
  code : number;
  timestamp : number;
  data : list (string * SymbolData)
}.

(** [Object.values(data.data)] *)
Definition values (data : list (string * SymbolData)) : list SymbolData :=
  map snd data.

(** [symbolMap.set(symbol.symbolID, symbol)] *)
Definition set_symbol (symbolMap : gmap number SymbolData) (symbol : SymbolData)
  : gmap number SymbolData :=
  <[map_key (symbolID symbol) := symbol]> symbolMap.

(** [symbolMap.get(id)] *)
Definition get (symbolMap : gmap number SymbolData) (id : number) : option SymbolData :=
  symbolMap !! map_key id.

Definition fetchSymbols (net : Fetched SymbolsResponse) : Result (gmap number SymbolData) :=
  response ← fetch net;
  if negb (ok response)
  then Err (Thrown ("Failed to fetch symbols: " +:+ statusText response))
  else
    data ← json response;
    if code_nonzero (code data)
    then Err (Thrown "API error retrieving symbols")
    else Ok (fold_left set_symbol (values (Symbols.data data)) ∅).

(** The last symbol of [l] whose id is [id] as a [Map] key. *)
Fixpoint last_with_id (id : number) (l : list SymbolData) : option SymbolData :=
  match l with
  | [] => None
  | x :: rest =>
      match last_with_id id rest with
      | Some y => Some y
      | None => if decide (map_key (symbolID x) = map_key id) then Some x else None
      end
  end.

End Symbols.

Module Enrich.

Import Positions.

Record EnrichedPosition : Type := {
  position : PositionData;        (* [...position] *)
  pairName : string;
  marginModeLabel : string;
  positionSideLabel : string;
  realizedPnlValue : number;
  tradingFee : number;
  closedSize : number;
  createdAtFormatted : string
}.

Section Builtins.

(** The decimal form a number takes in a template literal, and
    [new Date(ms).toLocaleString()], which depends on the locale and the time
    zone of the host. *)
Variable toString : number -> string.
Variable toLocaleString : number -> string.

(** The predicate of the [filter]: a closed size and a close price that are
    both positive. *)
Definition is_closed (position : PositionData) : bool :=
  let closedSize := parseFloat (or_zero (cum_closed_size position)) in
  let closePrice := parseFloat (or_zero (avg_close_price position)) in
  gtb closedSize zero && gtb closePrice zero.

(** [symbol?.name || `SYMBOL_${position.symbol_id}`] *)
Definition pairName_of (symbol : option Symbols.SymbolData) (symbol_id : number) : string :=
  match symbol with
  | Some sym =>
      if String.eqb (Symbols.name sym) "" then "SYMBOL_" +:+ toString symbol_id
      else Symbols.name sym
  | None => "SYMBOL_" +:+ toString symbol_id
  end.

(** The function of the [map]. *)
Definition enrich (symbolMap : gmap number Symbols.SymbolData) (position : PositionData)
  : EnrichedPosition :=
  let symbol := Symbols.get symbolMap (symbol_id position) in
  let pairName := pairName_of symbol (symbol_id position) in
  let marginModeLabel :=
    if strict_eqb (margin_mode position) (of_Z 1) then "ISOLATED"%string else "CROSS"%string in
  let positionSideValue :=
    match position_side position with
    | Str text => parseInt text
    | Num n => n
    end in
  let positionSideLabel :=
    if strict_eqb positionSideValue (of_Z 2) then "LONG"%string
    else if strict_eqb positionSideValue (of_Z 3) then "SHORT"%string
    else "UNKNOWN"%string in
  let realizedPnlValue := parseFloat (or_zero (realized_pnl position)) in
  let tradingFee := parseFloat (or_zero (cum_trading_fee position)) in
  let closedSize := parseFloat (or_zero (cum_closed_size position)) in
  let createdAtFormatted := toLocaleString (created_at position) in
  {| position := position;
     pairName := pairName;
     marginModeLabel := marginModeLabel;
     positionSideLabel := positionSideLabel;
     realizedPnlValue := realizedPnlValue;
     tradingFee := tradingFee;
     closedSize := closedSize;
     createdAtFormatted := createdAtFormatted |}.

Definition enrichPositions (positions : list PositionData)
    (net : Fetched Symbols.SymbolsResponse) : Result (list EnrichedPosition) :=
  symbolMap ← Symbols.fetchSymbols net;
  Ok (map (enrich symbolMap) (List.filter is_closed positions)).

End Builtins.

End Enrich.

(** ** Open positions and the PnL overview *)

Module Overview.

(** [fetchOpenPositions].  The account data [fetchAccountDetails] resolves
    with holds the [positions] array whose length the producer has read; an
    array is truthy, so that [accountData.positions || []] is that array. *)
Definition fetchOpenPositions (userId : string)
    (net : Fetched Futures.AccountDetailsResponse)
  : Result (list Futures.OpenPositionData) :=
  accountData ← Futures.fetchAccountDetails userId net;
  Ok (Futures.positions accountData).

Record PnLOverviewData : Type := {
  account_id : number;
  ts_ms : number;
  cumulative_pnl : string;
  cumulative_quote_volume : string;
  unrealized_pnl : string
}.

(** The body of the PnL overview route: untyped in the source; an error
    answer carries [error] and may carry no [data]. *)
Record PnLOverviewResult : Type := {
  data : option PnLOverviewData;
  error : option string;
  fromCache : option bool
}.

(** Truthiness of [result.error]. *)
Definition error_truthy (error : option string) : bool :=
  match error with
  | Some msg => negb (String.eqb msg "")
  | None => false
  end.

(** The producer of [fetchPnLOverview].  The [console.log] before the
    [return] reads [result.data.cumulative_quote_volume], which throws a
    TypeError when [data] is missing. *)
Definition fetchPnLOverview_producer (net : Fetched PnLOverviewResult)
  : Result PnLOverviewData :=
  response ← fetch net;
  if negb (ok response)
  then Err (Thrown ("Failed to fetch PnL overview: " +:+ statusText response))
  else
    result ← json response;
    if error_truthy (error result)
    then Err (Thrown (default "" (error result)))
    else
      match data result with
      | Some d => Ok d
      | None => Err (Thrown "TypeError: Cannot read properties of undefined")
      end.

Definition fetchPnLOverview (userId : string) (net : Fetched PnLOverviewResult)
  : Result PnLOverviewData :=
  deduplicate ("pnl_overview_" +:+ userId) (fetchPnLOverview_producer net).

Definition getVolumeFromPnLOverview (pnlData : PnLOverviewData) : number :=
  parseFloat (or_zero (cumulative_quote_volume pnlData)).

End Overview.

(** ** Sample symbols and positions *)

Module Listing.

(** How a template literal prints an integer below 10^21: its decimal
    digits.  (Other numbers do not occur in the samples.) *)
Definition show_integer (n : number) : string :=
  match n with
  | S754_zero _ => "0"
  | S754_finite s m e =>
      let magnitude := if 0 <=? e then Z.shiftl (Zpos m) e else Z.shiftr (Zpos m) (- e) in
      (if s then "-" else "") +:+ pretty.pretty magnitude
  | S754_infinity s => (if s then "-" else "") +:+ "Infinity"
  | S754_nan => "NaN"
  end.

Definition show_date (ms : number) : string := "11/14/2023, 10:13:20 PM".

Definition symbol (id name : string) : Symbols.SymbolData :=
  {| Symbols.symbolID := parseFloat id;
     Symbols.name := name;
     Symbols.baseCoin := "BTC";
     Symbols.quoteCoin := Some "USD"%string |}.

Definition listing : Symbols.SymbolsResponse :=
  {| Symbols.code := zero;
     Symbols.timestamp := parseFloat "1700000000000";
     Symbols.data := [("1"%string, symbol "1" "BTC-USD");
                      ("2"%string, symbol "2" "");
                      ("btc"%string, symbol "1" "BTC-PERP")] |}.

(** A position in symbol [symbol_id], closed for [closed] at price [price]. *)
Definition position_in (symbol_id closed price : string) : Positions.PositionData :=
  {| Positions.account_id := parseFloat "7";
     Positions.position_id := parseFloat "1";
     Positions.user_id := parseFloat "7";
     Positions.symbol_id := parseFloat symbol_id;
     Positions.margin_mode := parseFloat "1";
     Positions.position_side := Positions.Str "3";
     Positions.size := "0";
     Positions.initial_margin := "0";
     Positions.avg_entry_price := "100";
     Positions.cum_open_cost := "100";
     Positions.cum_trading_fee := "0.1";
     Positions.cum_closed_size := closed;
     Positions.avg_close_price := price;
     Positions.max_size := "1";
     Positions.realized_pnl := "";
     Positions.frozen_size := "0";
     Positions.leverage := parseFloat "5";
     Positions.active := false;
     Positions.is_taken_over := false;
     Positions.take_over_price := "0";
     Positions.created_at := parseFloat "1700000000000";
     Positions.updated_at := parseFloat "1700000000001" |}.

End Listing.

(** ** The cached status route of [src/app/api/dex-status/cached/route.ts] *)

Module DexStatus.

Record PairVolume : Type := {
  pair : string;
  volume : number
}.

Record AllTimeStats : Type := {
  total_combined_volume : number;
  total_spot_volume : number;
  total_futures_volume : number;
  top_5_spot : list PairVolume;
  top_5_futures : list PairVolume
}.

Record TodayStats : Type := {
  date : string;
  today_top_5_spot : list PairVolume;      (* [top_5_spot] of [today_stats] *)
  today_top_5_futures : list PairVolume    (* [top_5_futures] of [today_stats] *)
}.

Record VolumeStats : Type := {
  updated_at : string;
  all_time_stats : AllTimeStats;
  today_stats : TodayStats
}.

(** The three counts are array lengths. *)
Record TraderStats : Type := {
  totalUsers : nat;
  usersInProfit : nat;
  usersInLoss : nat
}.

Record CachedDexData : Type := {
  volumeData : option VolumeStats;
  traderStats : option TraderStats;
  lastUpdated : number
}.

(** An entry of the traders file. *)
Record Trader : Type := {
  userId : string;
  address : string;
  pnl : string;
  vol : string
}.

Definition CACHE_DURATION : Z := 30 * 60.
Definition CACHE_KEY : string := "dex-status-cache".
Definition GITHUB_TRADERS_URL : string :=
  "https://raw.githubusercontent.com/Eliasdegemu61/Sodex-Tracker-new-v1/main/live_stats.json".
Definition GITHUB_VOLUME_URL : string :=
  "https://raw.githubusercontent.com/Eliasdegemu61/sodex-tracker-new-v1-data-2/main/volume_summary.json".

(** A response with its numeric status; [response.ok] is a status from 200
    to 299. *)
Record Reply (B : Type) : Type := mkReply {
  status : N;
  body : Result B
}.
Arguments mkReply {B} status body.
Arguments status {B} r.
Arguments body {B} r.

Definition reply_ok {B : Type} (r : Reply B) : bool :=
  ((200 <=? status r) && (status r <=? 299))%N.

Inductive Outcome (B : Type) : Type :=
  | Unreachable (reason : string)
  | Replied (r : Reply B).
Arguments Unreachable {B} reason.
Arguments Replied {B} r.

(** What the route does to the outside, in order. *)
Inductive Effect : Type :=
  | RedisGet (key : string)
  | Fetch (url : string)
  | RedisSetex (key : string) (seconds : Z) (value : string).

(** What the outside answers during one request: [redis.get], the two
    files, [redis.setex], and the clock. *)
Record World : Type := {
  cached : Result (option string);
  traders : Outcome (list Trader);
  volumes : Outcome VolumeStats;
  setex : Result unit;
  clock : number
}.

(** A step of an [async] function: how it settles, and what it did. *)
Definition Action (A : Type) : Type := (Result A * list Effect)%type.

#[global] Instance Action_bind : MBind Action := fun A B k a =>
  match a with
  | (Ok x, done) => let '(r, more) := k x in (r, done ++ more)
  | (Err e, done) => (Err e, done)
  end.

Definition perform {A : Type} (e : Effect) (r : Result A) : Action A := (r, [e]).
Definition settle {A : Type} (r : Result A) : Action A := (r, []).

(** [await fetch(url, { cache: 'no-store' })] *)
Definition fetch_file {B : Type} (url : string) (net : Outcome B) : Action (Reply B) :=
  perform (Fetch url)
          match net with
          | Unreachable reason => Err (Failure reason)
          | Replied r => Ok r
          end.

(** The body of a route response. *)
Inductive Body : Type :=
  | DexData (data : CachedDexData) (fromCache : bool) (cacheAgeSeconds : number)
  | Refreshed (message : string) (data : CachedDexData) (fromCache : bool)
  | Failed (error : string).

Record RouteResponse : Type := {
  http_status : N;
  content : Body
}.

(** [NextResponse.json(body)] and [NextResponse.json(body, { status: 500 })] *)
Definition respond (b : Body) : RouteResponse := {| http_status := 200; content := b |}.
Definition respond_500 (b : Body) : RouteResponse := {| http_status := 500; content := b |}.

Definition in_profit (t : Trader) : bool := gtb (parseFloat (pnl t)) zero.
Definition in_loss (t : Trader) : bool := ltb (parseFloat (pnl t)) zero.


Definition stats_of (traders : list Trader) : TraderStats :=
  let totalUsers := length traders in
  let usersInProfit := length (List.filter in_profit traders) in
  let usersInLoss := length (List.filter in_loss traders) in
  {| totalUsers := totalUsers;
     usersInProfit := usersInProfit;
     usersInLoss := usersInLoss |}.

Section Route.

(** [JSON.stringify] and [JSON.parse] at the type of the cached data. *)
Variable JSON_stringify : CachedDexData -> string.
Variable JSON_parse : string -> Result CachedDexData.

(** [try { ... } catch (error) { console.error(...); throw error }] around
    the whole of [fetchAndCalculateDexData]. *)
Definition fetchAndCalculateDexData (w : World) : Action CachedDexData :=
  tradersResponse ← fetch_file GITHUB_TRADERS_URL (traders w);
  if negb (reply_ok tradersResponse)
  then settle (Err (Thrown ("Failed to fetch traders data: "
                            +:+ pretty.pretty (status tradersResponse))))
  else
    traders ← settle (body tradersResponse);
    let traderStats := stats_of traders in
    volumeResponse ← fetch_file GITHUB_VOLUME_URL (volumes w);
    if negb (reply_ok volumeResponse)
    then settle (Err (Thrown ("Failed to fetch volume data: "
                              +:+ pretty.pretty (status volumeResponse))))
    else
      volumeData ← settle (body volumeResponse);
      let now := clock w in
      let cachedData := {| volumeData := Some volumeData;
                           traderStats := Some traderStats;
                           lastUpdated := now |} in
      _ ← perform (RedisSetex CACHE_KEY CACHE_DURATION (JSON_stringify cachedData))
                  (setex w);
      settle (Ok cachedData).

(** Truthiness of what [redis.get] resolves with: [null] and [''] are
    falsy. *)
Definition cached_text (c : option string) : option string :=
  match c with
  | Some s => if String.eqb s "" then None else Some s
  | None => None
  end.

(** The handler of GET: its response and what it did. *)
Definition GET (w : World) : RouteResponse * list Effect :=
  let failed := respond_500 (Failed "Failed to fetch Dex Status data") in
  match cached w with
  | Err _ => (failed, [RedisGet CACHE_KEY])
  | Ok c =>
      match cached_text c with
      | Some text =>
          match JSON_parse text with
          | Err _ => (failed, [RedisGet CACHE_KEY])
          | Ok cachedData =>
              let cacheAgeSeconds :=
                Math_round (div (sub (clock w) (lastUpdated cachedData)) (of_Z 1000)) in
              (respond (DexData cachedData true cacheAgeSeconds), [RedisGet CACHE_KEY])
          end
      | None =>
          match fetchAndCalculateDexData w with
          | (Ok freshData, done) =>
              (respond (DexData freshData false zero), RedisGet CACHE_KEY :: done)
          | (Err _, done) => (failed, RedisGet CACHE_KEY :: done)
          end
      end
  end.

(** The handler of POST. *)
Definition POST (w : World) : RouteResponse * list Effect :=
  match fetchAndCalculateDexData w with
  | (Ok data, done) => (respond (Refreshed "Dex Status cache refreshed" data false), done)
  | (Err _, done) => (respond_500 (Failed "Failed to refresh cache"), done)
  end.

End Route.

(** The file is served: a success status and a body that parses. *)
Definition served {B : Type} (net : Outcome B) (content : B) : Prop :=
  exists r, net = Replied r /\ reply_ok r = true /\ body r = Ok content.

End DexStatus.

(** ** Sample traffic of the status route *)

Module Traffic.

Import DexStatus.

Definition trader (pnl : string) : Trader :=
  {| userId := "7"; address := "0xabc"; pnl := pnl; vol := "1000" |}.

Definition some_volumes : VolumeStats :=
  {| updated_at := "2023-11-14";
     all_time_stats :=
       {| total_combined_volume := parseFloat "3000";
          total_spot_volume := parseFloat "1000";
          total_futures_volume := parseFloat "2000";
          top_5_spot := [ {| pair := "BTC-USD"; volume := parseFloat "1000" |} ];
          top_5_futures := [ {| pair := "ETH-USD"; volume := parseFloat "2000" |} ] |};
     today_stats :=
       {| date := "2023-11-14"; today_top_5_spot := []; today_top_5_futures := [] |} |}.

(** Stand-ins for [JSON.stringify] and [JSON.parse]: the text names the time
    of the snapshot, and only the text of [stale] reads back. *)
Definition stale : CachedDexData :=
  {| volumeData := Some some_volumes;
     traderStats := Some {| totalUsers := 3; usersInProfit := 1; usersInLoss := 1 |};
     lastUpdated := parseFloat "1700000000000" |}.

Definition stringify (d : CachedDexData) : string :=
  "snapshot@" +:+ Listing.show_integer (lastUpdated d).

Definition parse (text : string) : Result CachedDexData :=
  if String.eqb text "snapshot@1700000000000" then Ok stale
  else Err (Failure "Unexpected token").

(** Five traders: two in profit, one in loss, one flat, one unreadable. *)
Definition five : list Trader :=
  [trader "12.5"; trader "-3"; trader "0"; trader "7"; trader "n/a"].

(** An empty cache, both files served, the write accepted. *)
Definition miss : World :=
  {| cached := Ok None;
     traders := Replied (mkReply 200 (Ok five));
     volumes := Replied (mkReply 200 (Ok some_volumes));
     setex := Ok tt;
     clock := parseFloat "1700000123456" |}.

(** A cached snapshot, and everything else down. *)
Definition hit : World :=
  {| cached := Ok (Some "snapshot@1700000000000"%string);
     traders := Unreachable "network down";
     volumes := Unreachable "network down";
     setex := Err (Failure "redis down");
     clock := parseFloat "1700000123456" |}.

(** As [miss], but Redis refuses the write. *)
Definition unwritable : World :=
  {| cached := Ok None;
     traders := Replied (mkReply 200 (Ok five));
     volumes := Replied (mkReply 200 (Ok some_volumes));
     setex := Err (Failure "redis down");
     clock := parseFloat "1700000123456" |}.

End Traffic.

(** ** Retrievals that fail together *)

Module Races.




End Races.

(** * Properties *)

(** ** Token names *)

Section TokenNames.

Import NormalizationPolicy.

Lemma strip_v_slice coin :
  (if startsWith coin "v" then slice 1 coin else coin) = strip_one_v coin.
Proof.
  destruct coin as [|c rest]; [reflexivity|].
  destruct c as [[] [] [] [] [] [] [] []]; reflexivity.
Qed.

Lemma normalizeTokenName_unfold coin :
  normalizeTokenName coin =
    let normalized := strip_one_v coin in
    if (String.eqb normalized "SOSO" || String.eqb normalized "WSOSO")%bool then "SOSO"%string
    else if String.eqb normalized "MAG7.ssi" then "MAG7"%string
    else if String.eqb normalized "USDC" then "USDC"%string
    else normalized.
Proof. unfold normalizeTokenName. rewrite strip_v_slice. reflexivity. Qed.

Lemma alias_functional name out1 out2 : alias name out1 -> alias name out2 -> out1 = out2.
Proof. intros H1 H2. inversion H1; subst; inversion H2; subst; reflexivity. Qed.

Lemma alias_is_alias name out : alias name out -> is_alias name.
Proof. unfold is_alias. inversion 1; subst; auto. Qed.

Lemma normalizes_sound coin : normalizes coin (normalizeTokenName coin).
Proof.
  rewrite normalizeTokenName_unfold. cbv zeta.
  destruct (String.eqb_spec (strip_one_v coin) "SOSO") as [E|N1].
  { simpl. apply norm_alias. rewrite E. constructor. }
  destruct (String.eqb_spec (strip_one_v coin) "WSOSO") as [E|N2].
  { simpl. apply norm_alias. rewrite E. constructor. }
  destruct (String.eqb_spec (strip_one_v coin) "MAG7.ssi") as [E|N3].
  { simpl. apply norm_alias. rewrite E. constructor. }
  destruct (String.eqb_spec (strip_one_v coin) "USDC") as [E|N4].
  { simpl. apply norm_alias. rewrite E. constructor. }
  simpl. apply norm_keep. unfold is_alias. tauto.
Qed.

Lemma normalizes_functional coin out1 out2 :
  normalizes coin out1 -> normalizes coin out2 -> out1 = out2.
Proof.
  intros [o1 A1|K1] [o2 A2|K2].
  - eapply alias_functional; eassumption.
  - exfalso. apply K2. eapply alias_is_alias; eassumption.
  - exfalso. apply K1. eapply alias_is_alias; eassumption.
  - reflexivity.
Qed.

(** C3. For every input string, [normalizeTokenName] strips a single leading
    [v] if there is one, then maps [SOSO] and [WSOSO] to [SOSO], [MAG7.ssi]
    to [MAG7], [USDC] to [USDC], and returns every other stripped name
    unchanged: its result is the one the normalization policy prescribes, and
    the only one.  In particular [WSOSO] gives [SOSO], [MAG7.ssi] gives [MAG7]
    and [vETH] gives [ETH]; only one [v] is stripped. *)
Theorem normalizeTokenName_policy :
  (forall coin out, normalizes coin out <-> out = normalizeTokenName coin) /\
  normalizeTokenName "WSOSO" = "SOSO"%string /\
  normalizeTokenName "MAG7.ssi" = "MAG7"%string /\
  normalizeTokenName "vETH" = "ETH"%string /\
  normalizeTokenName "vvETH" = "vETH"%string /\
  normalizeTokenName "vWSOSO" = "SOSO"%string.
Proof.
  split; [|repeat split; reflexivity].
  intros coin out. split.
  - intros H. eapply normalizes_functional; [exact H | apply normalizes_sound].
  - intros ->. apply normalizes_sound.
Qed.

End TokenNames.

(** ** Pagination *)

Section Pagination.

Import Positions.

Variable net : nat -> option string -> Fetched PositionsResponse.

Lemma fetchPositions_served n cursor items next :
  serves net n (cursor_param cursor) items next ->
  fetchPositions net n cursor = Ok (items, next).
Proof.
  intros (r & body & Hnet & Hok & Hjson & Hcode & -> & ->).
  unfold fetchPositions. rewrite Hnet. simpl. rewrite Hok. simpl.
  rewrite Hjson. simpl. rewrite Hcode. reflexivity.
Qed.

Lemma loop_pages n cursor ps :
  pages net n cursor ps ->
  forall fuel allPositions, (length ps <= fuel)%nat ->
    fetchAllPositions_loop net fuel n cursor allPositions
    = Some (Ok (allPositions ++ concat ps), (n + length ps)%nat).
Proof.
  induction 1 as [n cursor items next Hfetch Hlast
                 |n cursor items next rest Hfetch Hmore _ IH];
    intros fuel allPositions Hfuel; simpl in Hfuel;
    apply fetchPositions_served in Hfetch.
  - destruct fuel as [|fuel]; [lia|]. simpl.
    rewrite Hfetch, Hlast. simpl. rewrite app_nil_r.
    replace (n + 1)%nat with (S n) by lia. reflexivity.
  - destruct fuel as [|fuel]; [lia|]. simpl.
    rewrite Hfetch, Hmore. simpl.
    rewrite IH by lia. rewrite <- app_assoc.
    replace (S n + length rest)%nat with (n + S (length rest))%nat by lia. reflexivity.
Qed.

Lemma loop_short n cursor ps :
  pages net n cursor ps ->
  forall fuel allPositions, (fuel < length ps)%nat ->
    fetchAllPositions_loop net fuel n cursor allPositions = None.
Proof.
  induction 1 as [n cursor items next Hfetch Hlast
                 |n cursor items next rest Hfetch Hmore _ IH];
    intros fuel allPositions Hfuel; simpl in Hfuel;
    apply fetchPositions_served in Hfetch.
  - destruct fuel as [|fuel]; [reflexivity|lia].
  - destruct fuel as [|fuel]; [reflexivity|]. simpl.
    rewrite Hfetch, Hmore. simpl. apply IH. lia.
Qed.

(** C8. When the endpoint serves the pages [ps], each but the last with a
    cursor to the next and the last with none, [fetchAllPositions] returns
    the concatenation of the pages' items, pages in order and each page's
    items in their order; it leaves the loop at the first page without a
    cursor, after exactly one fetch per page: any number of iterations from
    [length ps] on is enough for it to return, and no smaller number is. *)
Theorem fetchAllPositions_concat ps :
  pages net 0 None ps ->
  (forall fuel, (length ps <= fuel)%nat ->
     fetchAllPositions net fuel = Some (Ok (concat ps), length ps)) /\
  (forall fuel, (fuel < length ps)%nat -> fetchAllPositions net fuel = None).
Proof.
  intros Hpages. split; intros fuel Hfuel; unfold fetchAllPositions.
  - rewrite (loop_pages _ _ _ Hpages) by assumption. reflexivity.
  - apply (loop_short _ _ _ Hpages). assumption.
Qed.

End Pagination.

Lemma two_pages_served :
  Positions.pages Samples.two_pages 0 None
    [[Samples.position "1" "1"; Samples.position "2" "3"]; [Samples.position "3" "2"]].
Proof.
  eapply Positions.pages_next with (next := Some "p2"%string).
  - do 2 eexists. repeat split; reflexivity.
  - reflexivity.
  - eapply Positions.pages_last with (next := None).
    + do 2 eexists. repeat split; reflexivity.
    + reflexivity.
Defined.

Lemma fetchAllPositions_concat_witness :
  Positions.fetchAllPositions Samples.two_pages 5
  = Some (Ok [Samples.position "1" "1"; Samples.position "2" "3"; Samples.position "3" "2"],
          2%nat)
  /\ Positions.fetchAllPositions Samples.two_pages 1 = None.
Proof.
  destruct (fetchAllPositions_concat Samples.two_pages _ two_pages_served) as [Hret Hshort].
  split.
  - apply (Hret 5%nat). simpl. lia.
  - apply (Hshort 1%nat). simpl. lia.
Defined.

(** ** Numbers *)

Lemma strict_eqb_refl (a : number) : is_nan a = false -> strict_eqb a a = true.
Proof.
  unfold strict_eqb, SFeqb.
  destruct a as [[]|[]| |[] m e]; simpl; try reflexivity; try discriminate;
    intros _; rewrite Z.compare_refl, Pos.compare_refl; reflexivity.
Qed.

(** [parseFloat] and the arithmetic on familiar inputs: 0.1 is
    0x1.999999999999ap-4, [0.1 + 0.2] is 0.30000000000000004 and not 0.3,
    the largest double is read back exactly and what lies half an ulp above it
    overflows, and a literal ends where its syntax does. *)
Example parseFloat_samples :
  parseFloat "0.1" = S754_finite false 7205759403792794 (-56) /\
  add (parseFloat "0.1") (parseFloat "0.2") = parseFloat "0.30000000000000004" /\
  add (parseFloat "0.1") (parseFloat "0.2") <> parseFloat "0.3" /\
  parseFloat "1.7976931348623157e308" = S754_finite false 9007199254740991 971 /\
  parseFloat "1.7976931348623159e308" = S754_infinity false /\
  parseFloat "5e-324" = S754_finite false 1 (-1074) /\
  parseFloat "  -12.5e1px" = parseFloat "-125" /\
  parseFloat "1e" = parseFloat "1" /\
  parseFloat ".5" = parseFloat "0.5" /\
  parseFloat "-0" = S754_zero true /\
  parseFloat "." = NaN /\
  parseFloat "abc" = NaN /\
  parseFloat "-Infinity" = S754_infinity true /\
  mul (parseFloat "2") (parseFloat "50000") = parseFloat "100000".
Proof. repeat split; try reflexivity. vm_compute. discriminate. Qed.

Lemma parseFloat_zero : parseFloat "0" = zero.
Proof. reflexivity. Qed.

Lemma parseFloat_empty : parseFloat "" = NaN.
Proof. reflexivity. Qed.

Lemma or_zero_nonempty (s : string) : s <> ""%string -> or_zero s = s.
Proof.
  intros Hs. unfold or_zero.
  destruct (String.eqb_spec s "") as [E|_]; [contradiction|reflexivity].
Qed.

(** [parseFloat(s || '0') > 0] and [parseFloat(s) > 0] agree: the empty string
    parses to NaN, which is not positive either. *)
Lemma or_zero_positive (s : string) :
  gtb (parseFloat (or_zero s)) zero = gtb (parseFloat s) zero.
Proof.
  unfold or_zero. destruct (String.eqb_spec s "") as [->|_]; reflexivity.
Qed.

Lemma or_zero_parse (s : string) :
  gtb (parseFloat s) zero = true -> parseFloat (or_zero s) = parseFloat s.
Proof.
  unfold or_zero. destruct (String.eqb_spec s "") as [->|_];
    [discriminate|reflexivity].
Qed.

(** ** Promises that settle together *)

Ltac split_times :=
  repeat match goal with
         | |- context [(?x <? ?y)%nat] => destruct (Nat.ltb_spec x y)
         end.

Lemma Promise_all4_ok_inv {A B C D : Type}
    (a : nat * Result A) (b : nat * Result B) (c : nat * Result C) (d : nat * Result D)
    (v : A * B * C * D) :
  Promise_all4 a b c d = Ok v ->
  exists x y z w,
    snd a = Ok x /\ snd b = Ok y /\ snd c = Ok z /\ snd d = Ok w /\ v = (x, y, z, w).
Proof.
  destruct a as [ta [x|ea]], b as [tb [y|eb]], c as [tc [z|ec]], d as [td [w|ed]];
    unfold Promise_all4, sooner, rejection; split_times;
    try discriminate.
  intros [= <-]. exists x, y, z, w. repeat split; reflexivity.
Qed.

(** ** The total balance *)

Section TotalBalance.

Import Total.

(** The aggregation succeeds exactly when its four retrievals do, and then
    returns what [aggregate] computes from them. *)
Lemma fetchTotalBalance_ok_inv userId net r :
  fetchTotalBalance userId net = Ok r ->
  exists accountData spotTokens markPrices fallbackPrices,
    Futures.fetchAccountDetails userId (accountDetails net) = Ok accountData /\
    Spot.fetchSpotBalance userId (spotBalances net) = Ok spotTokens /\
    Mark.fetchMarkPrices (Total.markPrices net) = Ok markPrices /\
    Fallback.fetchFallbackMarkPrices (fallbackMarkPrices net) = Ok fallbackPrices /\
    r = aggregate accountData spotTokens markPrices fallbackPrices.
Proof.
  unfold fetchTotalBalance, deduplicate, fetchTotalBalance_producer, try_rethrow.
  intros Hok.
  destruct (Promise_all4 _ _ _ _) as [[[[a sp] m] f]|e] eqn:Hall; [|discriminate].
  apply Promise_all4_ok_inv in Hall.
  destruct Hall as (a' & sp' & m' & f' & Ha & Hs & Hm & Hf & [= -> -> -> ->]).
  simpl in Hok. injection Hok as <-.
  exists a', sp', m', f'. repeat split; assumption.
Qed.

Lemma fetchTotalBalance_ok userId net accountData spotTokens markPrices fallbackPrices :
  Futures.fetchAccountDetails userId (accountDetails net) = Ok accountData ->
  Spot.fetchSpotBalance userId (spotBalances net) = Ok spotTokens ->
  Mark.fetchMarkPrices (Total.markPrices net) = Ok markPrices ->
  Fallback.fetchFallbackMarkPrices (fallbackMarkPrices net) = Ok fallbackPrices ->
  fetchTotalBalance userId net
  = Ok (aggregate accountData spotTokens markPrices fallbackPrices).
Proof.
  intros Ha Hs Hm Hf.
  unfold fetchTotalBalance, deduplicate, fetchTotalBalance_producer, try_rethrow.
  rewrite Ha, Hs, Hm, Hf. reflexivity.
Qed.

(** C1. For every successful call, the record [fetchTotalBalance] returns
    has as [totalBalance] exactly the binary64 sum of its [spotBalance] and
    [futuresBalance] fields, with no further rounding, where [spotBalance]
    is the spot USD sum computed from the retrieved tokens and prices and
    [futuresBalance] is the parsed futures wallet balance; unless the total
    is NaN, [totalBalance === spotBalance + futuresBalance] holds. *)
Theorem fetchTotalBalance_total userId net r :
  fetchTotalBalance userId net = Ok r ->
  totalBalance r = add (spotBalance r) (futuresBalance r) /\
  (is_nan (totalBalance r) = false ->
   strict_eqb (totalBalance r) (add (spotBalance r) (futuresBalance r)) = true) /\
  exists accountData spotTokens markPrices fallbackPrices,
    Futures.fetchAccountDetails userId (accountDetails net) = Ok accountData /\
    Spot.fetchSpotBalance userId (spotBalances net) = Ok spotTokens /\
    Mark.fetchMarkPrices (Total.markPrices net) = Ok markPrices /\
    Fallback.fetchFallbackMarkPrices (fallbackMarkPrices net) = Ok fallbackPrices /\
    spotBalance r
    = spotBalanceUSD_of (primaryPriceMap_of markPrices) fallbackPrices spotTokens /\
    futuresBalance r
    = parseFloat (walletBalance_or_zero (Futures.balances accountData)).
Proof.
  intros Hok.
  destruct (fetchTotalBalance_ok_inv _ _ _ Hok)
    as (a & sp & m & f & Ha & Hs & Hm & Hf & ->).
  split; [reflexivity|]. split.
  - intros Hnan. simpl in *. apply strict_eqb_refl. exact Hnan.
  - exists a, sp, m, f. repeat split; assumption.
Qed.

End TotalBalance.

Lemma fetchTotalBalance_total_witness :
  exists r,
    Total.fetchTotalBalance "7" Samples.network = Ok r /\
    Total.totalBalance r = add (Total.spotBalance r) (Total.futuresBalance r) /\
    Total.spotBalance r = parseFloat "100005" /\
    Total.futuresBalance r = parseFloat "250.5" /\
    Total.totalBalance r = parseFloat "100255.5".
Proof.
  eexists. split; [vm_compute; reflexivity|].
  split.
  - refine (proj1 (fetchTotalBalance_total "7" Samples.network _ _)).
    vm_compute. reflexivity.
  - vm_compute. repeat split; reflexivity.
Defined.

(** ** Tokens without a price *)

Section Unpriced.

Import Total.

Variables primaryPriceMap fallbackPrices : gmap string number.

Lemma resolve_price_primary normalized price :
  primaryPriceMap !! normalized = Some price ->
  resolve_price primaryPriceMap fallbackPrices normalized = Some price.
Proof. intros H. unfold resolve_price. rewrite H. reflexivity. Qed.

Lemma resolve_price_fallback normalized :
  primaryPriceMap !! normalized = None ->
  resolve_price primaryPriceMap fallbackPrices normalized = fallbackPrices !! normalized.
Proof. intros H. unfold resolve_price. rewrite H. reflexivity. Qed.

Lemma add_token_unpriced token spotBalanceUSD :
  resolve_price primaryPriceMap fallbackPrices (normalizeTokenName (Spot.coin token)) = None ->
  add_token primaryPriceMap fallbackPrices spotBalanceUSD token = spotBalanceUSD.
Proof. intros H. unfold add_token. rewrite H. reflexivity. Qed.

Lemma spotBalanceUSD_skip token before after :
  resolve_price primaryPriceMap fallbackPrices (normalizeTokenName (Spot.coin token)) = None ->
  spotBalanceUSD_of primaryPriceMap fallbackPrices (before ++ token :: after)
  = spotBalanceUSD_of primaryPriceMap fallbackPrices (before ++ after).
Proof.
  intros H. unfold spotBalanceUSD_of.
  rewrite !fold_left_app. simpl. rewrite add_token_unpriced by exact H. reflexivity.
Qed.

End Unpriced.

(** C2. A spot token whose normalized symbol has no entry in the primary price
    map and none in the fallback map contributes nothing to [spotBalanceUSD]:
    its turn leaves the running sum as it is, whatever its balance (also one
    that does not parse), so the sum and the whole result are those of the
    token list without it, and no error arises from it.  Prices are resolved
    from the primary map first and from the fallback map only when the primary
    map has no entry: a token the primary map prices adds its balance times
    the primary price to the sum, whatever the fallback map holds for it, and
    a token only the fallback map prices adds its balance times the fallback
    price. *)
Theorem unpriced_token_skipped
    (accountData : Futures.AccountDetailsData) (markPrices : list Mark.MarkPrice)
    (fallbackPrices : gmap string number) (token : Spot.SpotBalance)
    (before after : list Spot.SpotBalance) :
  Total.primaryPriceMap_of markPrices !! normalizeTokenName (Spot.coin token) = None ->
  fallbackPrices !! normalizeTokenName (Spot.coin token) = None ->
  (forall spotBalanceUSD,
     Total.add_token (Total.primaryPriceMap_of markPrices) fallbackPrices spotBalanceUSD token
     = spotBalanceUSD) /\
  Total.spotBalanceUSD_of (Total.primaryPriceMap_of markPrices) fallbackPrices
                          (before ++ token :: after)
  = Total.spotBalanceUSD_of (Total.primaryPriceMap_of markPrices) fallbackPrices
                            (before ++ after) /\
  Total.aggregate accountData (before ++ token :: after) markPrices fallbackPrices
  = Total.aggregate accountData (before ++ after) markPrices fallbackPrices /\
  (forall normalized price,
     Total.primaryPriceMap_of markPrices !! normalized = Some price ->
     Total.resolve_price (Total.primaryPriceMap_of markPrices) fallbackPrices normalized
     = Some price) /\
  (forall normalized,
     Total.primaryPriceMap_of markPrices !! normalized = None ->
     Total.resolve_price (Total.primaryPriceMap_of markPrices) fallbackPrices normalized
     = fallbackPrices !! normalized) /\
  (forall priced price spotBalanceUSD,
     Total.primaryPriceMap_of markPrices !! normalizeTokenName (Spot.coin priced)
     = Some price ->
     Total.add_token (Total.primaryPriceMap_of markPrices) fallbackPrices
                     spotBalanceUSD priced
     = add spotBalanceUSD (mul (parseFloat (Spot.balance priced)) price)) /\
  (forall priced price spotBalanceUSD,
     Total.primaryPriceMap_of markPrices !! normalizeTokenName (Spot.coin priced) = None ->
     fallbackPrices !! normalizeTokenName (Spot.coin priced) = Some price ->
     Total.add_token (Total.primaryPriceMap_of markPrices) fallbackPrices
                     spotBalanceUSD priced
     = add spotBalanceUSD (mul (parseFloat (Spot.balance priced)) price)) /\
  (forall tokens priced price,
     Total.primaryPriceMap_of markPrices !! normalizeTokenName (Spot.coin priced)
     = Some price ->
     Total.spotBalance
       (Total.aggregate accountData (tokens ++ [priced]) markPrices fallbackPrices)
     = add (Total.spotBalance
              (Total.aggregate accountData tokens markPrices fallbackPrices))
           (mul (parseFloat (Spot.balance priced)) price)) /\
  (forall tokens priced price,
     Total.primaryPriceMap_of markPrices !! normalizeTokenName (Spot.coin priced) = None ->
     fallbackPrices !! normalizeTokenName (Spot.coin priced) = Some price ->
     Total.spotBalance
       (Total.aggregate accountData (tokens ++ [priced]) markPrices fallbackPrices)
     = add (Total.spotBalance
              (Total.aggregate accountData tokens markPrices fallbackPrices))
           (mul (parseFloat (Spot.balance priced)) price)).
Proof.
  intros Hprimary Hfallback.
  assert (Total.resolve_price (Total.primaryPriceMap_of markPrices) fallbackPrices
            (normalizeTokenName (Spot.coin token)) = None) as Hnone.
  { rewrite resolve_price_fallback by exact Hprimary. exact Hfallback. }
  assert (forall priced price acc,
            Total.resolve_price (Total.primaryPriceMap_of markPrices) fallbackPrices
              (normalizeTokenName (Spot.coin priced)) = Some price ->
            Total.add_token (Total.primaryPriceMap_of markPrices) fallbackPrices acc priced
            = add acc (mul (parseFloat (Spot.balance priced)) price)) as Hadd.
  { intros priced price acc Hprice. unfold Total.add_token. rewrite Hprice. reflexivity. }
  assert (forall tokens priced price,
            Total.resolve_price (Total.primaryPriceMap_of markPrices) fallbackPrices
              (normalizeTokenName (Spot.coin priced)) = Some price ->
            Total.spotBalance
              (Total.aggregate accountData (tokens ++ [priced]) markPrices fallbackPrices)
            = add (Total.spotBalance
                     (Total.aggregate accountData tokens markPrices fallbackPrices))
                  (mul (parseFloat (Spot.balance priced)) price)) as Hlast.
  { intros tokens priced price Hprice. simpl. unfold Total.spotBalanceUSD_of.
    rewrite fold_left_app. simpl. apply Hadd. exact Hprice. }
  split; [|split; [|split; [|split; [|split; [|split; [|split; [|split]]]]]]].
  - intros acc. apply add_token_unpriced. exact Hnone.
  - apply spotBalanceUSD_skip. exact Hnone.
  - unfold Total.aggregate. rewrite spotBalanceUSD_skip by exact Hnone. reflexivity.
  - intros normalized price. apply resolve_price_primary.
  - intros normalized. apply resolve_price_fallback.
  - intros priced price acc Hp. apply Hadd. apply resolve_price_primary. exact Hp.
  - intros priced price acc Hp Hf. apply Hadd.
    rewrite resolve_price_fallback by exact Hp. exact Hf.
  - intros tokens priced price Hp. apply Hlast. apply resolve_price_primary. exact Hp.
  - intros tokens priced price Hp Hf. apply Hlast.
    rewrite resolve_price_fallback by exact Hp. exact Hf.
Qed.

(** The sample network holds a hundred [USDC] that neither source prices: the
    spot sum is that of the two priced tokens, 2 * 50000 + 10 * 0.5.  And when
    the fallback map also prices [BTC], at 1, two [vBTC] are still worth
    2 * 50000. *)
Lemma unpriced_token_skipped_witness :
  Total.spotBalanceUSD_of
    (Total.primaryPriceMap_of [Samples.quote "BTC-USD" "50000"; Samples.quote "ETH-USD" "3000"])
    (<["SOSO"%string := parseFloat "0.5"]> ∅)
    ([Samples.spot_token "vBTC" "2"] ++ Samples.spot_token "USDC" "100"
       :: [Samples.spot_token "WSOSO" "10"])
  = Total.spotBalanceUSD_of
    (Total.primaryPriceMap_of [Samples.quote "BTC-USD" "50000"; Samples.quote "ETH-USD" "3000"])
    (<["SOSO"%string := parseFloat "0.5"]> ∅)
    ([Samples.spot_token "vBTC" "2"] ++ [Samples.spot_token "WSOSO" "10"])
  /\
  Total.spotBalance
    (Total.aggregate (Samples.account_data []) ([] ++ [Samples.spot_token "vBTC" "2"])
       [Samples.quote "BTC-USD" "50000"] (<["BTC"%string := parseFloat "1"]> ∅))
  = parseFloat "100000".
Proof.
  split.
  - refine (proj1 (proj2 (unpriced_token_skipped (Samples.account_data [])
                            _ _ _ _ _ _ _))); vm_compute; reflexivity.
  - refine (eq_trans
              (proj1 (proj2 (proj2 (proj2 (proj2 (proj2 (proj2 (proj2
                 (unpriced_token_skipped (Samples.account_data [])
                    [Samples.quote "BTC-USD" "50000"]
                    (<["BTC"%string := parseFloat "1"]> ∅)
                    (Samples.spot_token "USDC" "100") [] [] _ _))))))))
                 [] (Samples.spot_token "vBTC" "2") (parseFloat "50000") _) _);
      vm_compute; reflexivity.
Defined.

(** ** The futures wallet *)

(** The first entry of the futures balances list has an empty [walletBalance]:
    the aggregation returns a futures balance of zero, while the entry's
    [walletBalance] parses to NaN. *)
Lemma empty_walletBalance_counterexample :
  exists r accountData first,
    Total.fetchTotalBalance "7" (Samples.with_wallets [Samples.wallet ""]) = Ok r /\
    Futures.fetchAccountDetails "7"
      (Total.accountDetails (Samples.with_wallets [Samples.wallet ""])) = Ok accountData /\
    Futures.balances accountData = [first] /\
    Total.futuresBalance r = zero /\
    parseFloat (Futures.walletBalance first) = NaN /\
    Total.futuresBalance r <> parseFloat (Futures.walletBalance first).
Proof.
  eexists; eexists; eexists.
  split; [vm_compute; reflexivity|].
  split; [vm_compute; reflexivity|].
  split; [reflexivity|].
  split; [reflexivity|].
  split; [reflexivity|].
  vm_compute. discriminate.
Qed.

(** C9 (amended). In [fetchTotalBalance] the [futuresBalance] field is the
    parsed [walletBalance] of the first entry of the futures account's
    balances list when that [walletBalance] is not the empty string; it is
    zero when the list is empty (so that there is no first entry) and when the
    first entry's [walletBalance] is the empty string. *)
Theorem futuresBalance_first_entry userId net r accountData :
  Total.fetchTotalBalance userId net = Ok r ->
  Futures.fetchAccountDetails userId (Total.accountDetails net) = Ok accountData ->
  match Futures.balances accountData with
  | [] => Total.futuresBalance r = zero
  | first :: _ =>
      (Futures.walletBalance first <> ""%string ->
       Total.futuresBalance r = parseFloat (Futures.walletBalance first)) /\
      (Futures.walletBalance first = ""%string -> Total.futuresBalance r = zero)
  end.
Proof.
  intros Hok Hacct.
  destruct (fetchTotalBalance_ok_inv _ _ _ Hok)
    as (a & sp & m & f & Ha & _ & _ & _ & ->).
  rewrite Hacct in Ha. injection Ha as <-.
  simpl. destruct (Futures.balances accountData) as [|first rest]; simpl.
  - apply parseFloat_zero.
  - split.
    + intros Hne. rewrite or_zero_nonempty by exact Hne. reflexivity.
    + intros ->. reflexivity.
Qed.

Lemma futuresBalance_first_entry_witness :
  exists r,
    Total.fetchTotalBalance "7" Samples.network = Ok r /\
    Total.futuresBalance r = parseFloat "250.5".
Proof.
  eexists. split; [vm_compute; reflexivity|].
  refine (proj1 (futuresBalance_first_entry "7" Samples.network _
                   (Samples.account_data [Samples.wallet "250.5"]) _ _) _).
  - vm_compute. reflexivity.
  - vm_compute. reflexivity.
  - simpl. discriminate.
Defined.

(** ** Failures of the upstream services *)

Section Failures.

Import Total.




Lemma fetchFallbackMarkPrices_refused net :
  refuses Fallback.code net -> Fallback.fetchFallbackMarkPrices net = Ok ∅.
Proof.
  intros (r & -> & [Hok|(body & Hjson & Hcode)]);
    unfold Fallback.fetchFallbackMarkPrices, deduplicate,
      Fallback.fetchFallbackMarkPrices_producer; simpl.
  - rewrite Hok. reflexivity.
  - destruct (ok r); simpl; [|reflexivity]. rewrite Hjson. simpl. rewrite Hcode.
    reflexivity.
Qed.



End Failures.

(** The request to the fallback price source fails on the network, so that
    the promise of [fetch] rejects: [fetchFallbackMarkPrices] rejects with it,
    and so does the aggregation that awaits it, although the three other
    retrievals succeed.  The same happens when the body of a success response
    does not parse. *)
Lemma fallback_rejection_counterexample :
  Fallback.fetchFallbackMarkPrices (Rejected "Failed to fetch")
  = Err (Failure "Failed to fetch") /\
  Total.fetchTotalBalance "7" (Samples.with_fallback (Rejected "Failed to fetch"))
  = Err (Failure "Failed to fetch") /\
  Total.fetchTotalBalance "7"
    (Samples.with_fallback
       (Responded (mkResponse true "OK" (Err (Failure "Unexpected end of JSON input")))))
  = Err (Failure "Unexpected end of JSON input").
Proof. repeat split; vm_compute; reflexivity. Qed.

(** C6 (amended). When the fallback mark-price source answers with a status
    that is not a success, or with a body whose [code] is not zero,
    [fetchFallbackMarkPrices] returns an empty price map instead of throwing,
    and the enclosing aggregation goes on with that empty map: if the three
    other retrievals succeed, [fetchTotalBalance] returns the aggregate
    computed with no fallback price. *)
Theorem fallback_refusal_degrades userId net :
  refuses Fallback.code (Total.fallbackMarkPrices net) ->
  Fallback.fetchFallbackMarkPrices (Total.fallbackMarkPrices net) = Ok ∅ /\
  (forall accountData spotTokens markPrices,
     Futures.fetchAccountDetails userId (Total.accountDetails net) = Ok accountData ->
     Spot.fetchSpotBalance userId (Total.spotBalances net) = Ok spotTokens ->
     Mark.fetchMarkPrices (Total.markPrices net) = Ok markPrices ->
     Total.fetchTotalBalance userId net
     = Ok (Total.aggregate accountData spotTokens markPrices ∅)).
Proof.
  intros Hrefused.
  pose proof (fetchFallbackMarkPrices_refused _ Hrefused) as Hempty.
  split; [exact Hempty|].
  intros a sp m Ha Hs Hm.
  apply fetchTotalBalance_ok; assumption.
Qed.

Lemma unavailable_refuses {B : Type} (code : B -> number) :
  refuses code Samples.unavailable.
Proof. eexists. split; [reflexivity|]. left. reflexivity. Defined.

(** The fallback source answers 503: the aggregation still succeeds, and the
    [WSOSO] holding, which only the fallback source prices, is left out. *)
Lemma fallback_refusal_degrades_witness :
  Fallback.fetchFallbackMarkPrices (@Samples.unavailable Fallback.FallbackMarkPriceResponse)
  = Ok ∅ /\
  exists r,
    Total.fetchTotalBalance "7" (Samples.with_fallback Samples.unavailable) = Ok r /\
    Total.spotBalance r = parseFloat "100000".
Proof.
  destruct (fallback_refusal_degrades "7" (Samples.with_fallback Samples.unavailable)
              (unavailable_refuses _)) as [Hempty Hgoes].
  split; [exact Hempty|].
  eexists. split.
  - apply Hgoes; vm_compute; reflexivity.
  - vm_compute. reflexivity.
Defined.




(** ** The detailed balance *)

Section DetailedTokens.

Import Detailed.

Lemma push_token_displayed tokens tokenData :
  push_token tokens tokenData
  = if positive_balance tokenData then tokens ++ [displayed tokenData] else tokens.
Proof.
  unfold push_token, positive_balance.
  rewrite or_zero_positive.
  destruct (gtb (parseFloat (SpotJson.balance tokenData)) zero) eqn:Hpos;
    [|reflexivity].
  rewrite (or_zero_parse _ Hpos).
  unfold displayed, upstream_usdValue, opt_or_zero.
  destruct (SpotJson.usdValue tokenData) as [u|]; simpl.
  - rewrite or_zero_positive.
    destruct (gtb (parseFloat u) zero) eqn:Hu; simpl.
    + rewrite (or_zero_parse _ Hu). reflexivity.
    + reflexivity.
  - reflexivity.
Qed.

Lemma fold_push_token spotBalance tokens :
  fold_left push_token spotBalance tokens
  = tokens ++ map displayed (List.filter positive_balance spotBalance).
Proof.
  revert tokens. induction spotBalance as [|tokenData rest IH]; intros tokens; simpl.
  - rewrite app_nil_r. reflexivity.
  - rewrite IH, push_token_displayed.
    destruct (positive_balance tokenData); simpl.
    + rewrite <- app_assoc. reflexivity.
    + reflexivity.
Qed.

Lemma tokens_of_displayed spotResponse :
  tokens_of (SpotJson.data spotResponse)
  = map displayed (List.filter positive_balance (spot_tokens spotResponse)).
Proof.
  unfold tokens_of, spot_tokens.
  destruct (SpotJson.data spotResponse) as [d|]; [|reflexivity].
  destruct (SpotJson.spotBalance d) as [l|]; [|reflexivity].
  simpl. apply fold_push_token.
Qed.

(** C10. The [tokens] array [fetchDetailedBalance] returns holds exactly the
    spot tokens of the response whose parsed balance is strictly positive,
    in their order.  Each is named by its coin less one leading [v] or [w]
    (not the rule of [normalizeTokenName], which strips a [v] only), and its
    [usdValue] is the upstream [usdValue] when that parses to a positive
    number, and the token's balance otherwise. *)
Theorem fetchDetailedBalance_tokens userId futuresNet spotNet r :
  fetchDetailedBalance userId futuresNet spotNet = Ok r ->
  (exists spotResponse,
     fetch_json spotNet = Ok spotResponse /\
     tokens r = map displayed (List.filter positive_balance (spot_tokens spotResponse))) /\
  (forall shown, In shown (tokens r) ->
     gtb (balance shown) zero = true /\
     token shown = replace_leading_vw (coin shown) /\
     (usdValue shown = balance shown \/ gtb (usdValue shown) zero = true)) /\
  replace_leading_vw "wETH" = "ETH"%string /\
  normalizeTokenName "wETH" = "wETH"%string /\
  replace_leading_vw "vwETH" = "wETH"%string.
Proof.
  intros Hok.
  assert (exists spotResponse,
     fetch_json spotNet = Ok spotResponse /\
     tokens r = map displayed (List.filter positive_balance (spot_tokens spotResponse)))
    as Hshape.
  { revert Hok.
    unfold fetchDetailedBalance, deduplicate, fetchDetailedBalance_producer, try_rethrow.
    destruct (fetch_json futuresNet) as [futuresResponse|ef]; [|discriminate].
    destruct (fetch_json spotNet) as [spotResponse|es]; [|discriminate].
    simpl.
    destruct (code_nonzero (FuturesJson.code futuresResponse)
              || code_nonzero (SpotJson.code spotResponse))%bool; [discriminate|].
    intros [= <-]. exists spotResponse. split; [reflexivity|].
    simpl. apply tokens_of_displayed. }
  split; [exact Hshape|].
  split; [|repeat split; reflexivity].
  destruct Hshape as (spotResponse & _ & ->).
  intros shown Hin.
  apply in_map_iff in Hin. destruct Hin as (tokenData & <- & Hin).
  apply filter_In in Hin. destruct Hin as [_ Hpos].
  split; [exact Hpos|]. split; [reflexivity|].
  simpl. unfold upstream_usdValue.
  destruct (SpotJson.usdValue tokenData) as [u|]; [|left; reflexivity].
  destruct (gtb (parseFloat u) zero) eqn:Hu; [right; exact Hu|left; reflexivity].
Qed.

End DetailedTokens.

(** ** The request cache *)

Section CacheProperties.

Import Cache.

Context {V : Type}.
Variable ttl : Z.

Abbreviation State := (Cache.State V).
Abbreviation step := (Cache.step ttl).
Abbreviation run := (Cache.run ttl).

Lemma runs_start key k caller (st : State) :
  runs key (start k caller st) = (runs key st + if bool_decide (k = key) then 1 else 0)%nat.
Proof.
  unfold runs, start. simpl.
  rewrite filter_app, length_app. f_equal.
  rewrite filter_cons, filter_nil.
  case_bool_decide; case_decide; simpl; congruence.
Qed.

(** An event about another key leaves the entry of [key] and the number of
    its producer runs as they are. *)
Lemma step_other key ev (st : State) :
  key_of ev <> key ->
  table (step st ev) !! key = table st !! key /\
  runs key (step st ev) = runs key st.
Proof.
  intros Hne. destruct ev as [k caller now|k value now|k e now]; simpl in *.
  - unfold deduplicate.
    destruct (table st !! k) as [[waiters|value expiresAt]|] eqn:Hk.
    + simpl. rewrite lookup_insert_ne by exact Hne. split; reflexivity.
    + destruct (now <? expiresAt).
      * split; reflexivity.
      * rewrite runs_start. rewrite bool_decide_eq_false_2 by exact Hne.
        simpl. rewrite lookup_insert_ne by exact Hne. split; [reflexivity|lia].
    + rewrite runs_start. rewrite bool_decide_eq_false_2 by exact Hne.
      simpl. rewrite lookup_insert_ne by exact Hne. split; [reflexivity|lia].
  - unfold resolve.
    destruct (table st !! k) as [[waiters|v expiresAt]|]; try (split; reflexivity).
    simpl. rewrite lookup_insert_ne by exact Hne. split; reflexivity.
  - unfold reject.
    destruct (table st !! k) as [[waiters|v expiresAt]|]; try (split; reflexivity).
    simpl. rewrite lookup_delete_ne by exact Hne. split; reflexivity.
Qed.

(** While the run for [key] is in flight and does not settle, every call to
    [key] joins its waiters and no further run is started for it. *)
Lemma pending_shared key evs : forall (st : State) waiters,
  table st !! key = Some (Pending waiters) ->
  Forall (fun ev => settles key ev = false) evs ->
  table (run st evs) !! key = Some (Pending (waiters ++ callers_of key evs)) /\
  runs key (run st evs) = runs key st.
Proof.
  induction evs as [|ev evs IH]; intros st waiters Hpending Hquiet.
  - simpl. rewrite app_nil_r. split; [exact Hpending|reflexivity].
  - apply Forall_cons in Hquiet. destruct Hquiet as [Hev Hquiet].
    change (run st (ev :: evs)) with (run (step st ev) evs).
    destruct (decide (key_of ev = key)) as [Heq|Hne].
    + destruct ev as [k caller now|k value now|k e now]; simpl in Heq; subst k.
      * assert (table (step st (Call key caller now)) !! key
                = Some (Pending (waiters ++ [caller])) /\
                runs key (step st (Call key caller now)) = runs key st) as [Ht Hr].
        { simpl. unfold deduplicate. rewrite Hpending. simpl.
          rewrite lookup_insert_eq. split; reflexivity. }
        destruct (IH _ _ Ht Hquiet) as [Ht' Hr'].
        simpl callers_of. rewrite bool_decide_eq_true_2 by reflexivity.
        rewrite Ht', Hr', Hr, <- app_assoc. split; reflexivity.
      * simpl in Hev. rewrite bool_decide_eq_true_2 in Hev by reflexivity. discriminate.
      * simpl in Hev. rewrite bool_decide_eq_true_2 in Hev by reflexivity. discriminate.
    + destruct (step_other key ev st Hne) as [Ht Hr].
      rewrite <- Ht in Hpending.
      destruct (IH _ _ Hpending Hquiet) as [Ht' Hr'].
      rewrite Ht', Hr', Hr. split; [|reflexivity].
      destruct ev as [k caller now|k value now|k e now]; simpl in *;
        try reflexivity.
      rewrite bool_decide_eq_false_2 by exact Hne. reflexivity.
Qed.

Lemma call_vacant key caller now (st : State) :
  vacant key now st ->
  step st (Call key caller now) = start key caller st.
Proof.
  unfold vacant. simpl. unfold deduplicate.
  destruct (table st !! key) as [[waiters|value expiresAt]|]; intros Hv.
  - contradiction.
  - destruct (Z.ltb_spec now expiresAt); [lia|reflexivity].
  - reflexivity.
Qed.

(** What the cache hands to its callers is what producer runs settled with:
    a value some run resolved with, or the failure some run rejected with.
    This is the view of the cache the aggregator is modelled on. *)
Lemma settled_by_app (evs more : list (Event V)) (r : Result V) :
  settled_by evs r -> settled_by (evs ++ more) r.
Proof.
  unfold settled_by.
  destruct r as [value|e]; intros (k & now & Hin); exists k, now;
    apply in_or_app; left; exact Hin.
Qed.

Lemma cache_transparent (evs : list (Event V)) :
  (forall k value expiresAt,
     table (run empty evs) !! k = Some (Fulfilled value expiresAt) ->
     settled_by evs (Ok value)) /\
  (forall caller r, In (caller, r) (settled (run empty evs)) -> settled_by evs r).
Proof.
  induction evs as [|ev evs [IHt IHs]] using rev_ind.
  - split.
    + intros k value expiresAt. simpl. rewrite lookup_empty. discriminate.
    + intros caller r [].
  - unfold Cache.run in *. rewrite fold_left_app. simpl.
    set (st := fold_left step evs empty) in *.
    assert (forall r, settled_by [ev] r -> settled_by (evs ++ [ev]) r) as Hnew.
    { unfold settled_by. intros [value|e]; intros (k & now & Hin); exists k, now;
        apply in_or_app; right; exact Hin. }
    destruct ev as [k caller now|k value now|k e now]; simpl.
    + unfold deduplicate.
      destruct (table st !! k) as [[waiters|value expiresAt]|] eqn:Hk.
      * split.
        -- intros k' v' exp'. simpl. rewrite lookup_insert.
           case_decide; [discriminate|]. intros Hlook. eapply settled_by_app, IHt, Hlook.
        -- intros c r Hin. eapply settled_by_app, IHs, Hin.
      * destruct (now <? expiresAt); simpl.
        -- split.
           ++ intros k' v' exp' Hlook. eapply settled_by_app, IHt, Hlook.
           ++ intros c r Hin. apply in_app_or in Hin. destruct Hin as [Hin|[[= <- <-]|[]]].
              ** eapply settled_by_app, IHs, Hin.
              ** eapply settled_by_app, IHt, Hk.
        -- split.
           ++ intros k' v' exp'. rewrite lookup_insert.
              case_decide; [discriminate|]. intros Hlook. eapply settled_by_app, IHt, Hlook.
           ++ intros c r Hin. eapply settled_by_app, IHs, Hin.
      * split.
        -- intros k' v' exp'. simpl. rewrite lookup_insert.
           case_decide; [discriminate|]. intros Hlook. eapply settled_by_app, IHt, Hlook.
        -- intros c r Hin. eapply settled_by_app, IHs, Hin.
    + unfold resolve.
      destruct (table st !! k) as [[waiters|v expiresAt]|] eqn:Hk; simpl.
      * split.
        -- intros k' v' exp'. rewrite lookup_insert. case_decide.
           ++ intros [= <- _]. apply Hnew. exists k, now. left. reflexivity.
           ++ intros Hlook. eapply settled_by_app, IHt, Hlook.
        -- intros c r Hin. apply in_app_or in Hin. destruct Hin as [Hin|Hin].
           ++ eapply settled_by_app, IHs, Hin.
           ++ unfold deliver in Hin. apply in_map_iff in Hin.
              destruct Hin as (w & [= _ <-] & _).
              apply Hnew. exists k, now. left. reflexivity.
      * split.
        -- intros k' v' exp' Hlook. eapply settled_by_app, IHt, Hlook.
        -- intros c r Hin. eapply settled_by_app, IHs, Hin.
      * split.
        -- intros k' v' exp' Hlook. eapply settled_by_app, IHt, Hlook.
        -- intros c r Hin. eapply settled_by_app, IHs, Hin.
    + unfold reject.
      destruct (table st !! k) as [[waiters|v expiresAt]|] eqn:Hk; simpl.
      * split.
        -- intros k' v' exp'. rewrite lookup_delete. case_decide; [discriminate|].
           intros Hlook. eapply settled_by_app, IHt, Hlook.
        -- intros c r Hin. apply in_app_or in Hin. destruct Hin as [Hin|Hin].
           ++ eapply settled_by_app, IHs, Hin.
           ++ unfold deliver in Hin. apply in_map_iff in Hin.
              destruct Hin as (w & [= _ <-] & _).
              apply Hnew. exists k, now. left. reflexivity.
      * split.
        -- intros k' v' exp' Hlook. eapply settled_by_app, IHt, Hlook.
        -- intros c r Hin. eapply settled_by_app, IHs, Hin.
      * split.
        -- intros k' v' exp' Hlook. eapply settled_by_app, IHt, Hlook.
        -- intros c r Hin. eapply settled_by_app, IHs, Hin.
Qed.

(** C4. A first call to [deduplicate(K, producer)] finds no live entry and
    starts the producer; further calls to [K] arrive, among any other events
    of the cache, while that run has not settled.  Then the producer has been
    invoked exactly once for [K], all the callers wait on that one run, and
    when it resolves each of them receives its value, when it rejects each of
    them receives its failure. *)
Theorem single_flight key first t0 evs (st : State) :
  vacant key t0 st ->
  Forall (fun ev => settles key ev = false) evs ->
  let pending := run (step st (Call key first t0)) evs in
  let sharers := first :: callers_of key evs in
  table pending !! key = Some (Pending sharers) /\
  runs key pending = S (runs key st) /\
  (forall value now,
     let after := step pending (Resolve key value now) in
     settled after = settled pending ++ deliver (Ok value) sharers /\
     runs key after = S (runs key st)) /\
  (forall e now,
     let after := step pending (Reject key e now) in
     settled after = settled pending ++ deliver (Err e) sharers /\
     runs key after = S (runs key st)).
Proof.
  intros Hvacant Hquiet pending sharers.
  assert (table (step st (Call key first t0)) !! key = Some (Pending [first]) /\
          runs key (step st (Call key first t0)) = S (runs key st)) as [Ht Hr].
  { rewrite call_vacant by exact Hvacant. rewrite runs_start.
    rewrite bool_decide_eq_true_2 by reflexivity. simpl.
    rewrite lookup_insert_eq. split; [reflexivity|lia]. }
  destruct (pending_shared key evs _ _ Ht Hquiet) as [Hpending Hruns].
  fold pending in Hpending, Hruns. simpl app in Hpending. fold sharers in Hpending.
  rewrite Hr in Hruns.
  split; [exact Hpending|]. split; [exact Hruns|]. split.
  - intros value now. simpl. unfold resolve. rewrite Hpending. simpl.
    split; [reflexivity|exact Hruns].
  - intros e now. simpl. unfold reject. rewrite Hpending. simpl.
    split; [reflexivity|exact Hruns].
Qed.

(** A live entry stays as it is, and no run is started for its key, as long
    as every call to the key comes before the entry expires. *)
Lemma fulfilled_kept key value expiresAt evs : forall (st : State),
  table st !! key = Some (Fulfilled value expiresAt) ->
  calls_before key expiresAt evs ->
  table (run st evs) !! key = Some (Fulfilled value expiresAt) /\
  runs key (run st evs) = runs key st.
Proof.
  induction evs as [|ev evs IH]; intros st Hlive Hcalls.
  - split; [exact Hlive|reflexivity].
  - apply Forall_cons in Hcalls. destruct Hcalls as [Hev Hcalls].
    change (run st (ev :: evs)) with (run (step st ev) evs).
    assert (table (step st ev) !! key = Some (Fulfilled value expiresAt) /\
            runs key (step st ev) = runs key st) as [Ht Hr].
    { destruct (decide (key_of ev = key)) as [Heq|Hne].
      - destruct ev as [k caller now|k v now|k e now]; simpl in Heq; subst k; simpl.
        + unfold deduplicate. rewrite Hlive.
          destruct (Z.ltb_spec now expiresAt) as [_|Hge]; [split; [exact Hlive|reflexivity]|].
          specialize (Hev eq_refl). lia.
        + unfold resolve. rewrite Hlive. split; [exact Hlive|reflexivity].
        + unfold reject. rewrite Hlive. split; [exact Hlive|reflexivity].
      - destruct (step_other key ev st Hne) as [Ht Hr].
        rewrite Ht, Hr. split; [exact Hlive|reflexivity]. }
    destruct (IH _ Ht Hcalls) as [Ht' Hr'].
    rewrite Ht', Hr', Hr. split; reflexivity.
Qed.

(** C5. The run in flight for [K] resolves with [value] at time [t]: the
    entry stored for [K] carries [value] and the expiry timestamp [t + ttl].
    After that, and after any further events in which [K] is only called
    within the TTL window, a call to [deduplicate(K, producer)] made before
    [t + ttl] receives that same [value], and no second producer run has
    been started for [K]. *)
Theorem cached_within_ttl key waiters value t evs caller now (st : State) :
  table st !! key = Some (Pending waiters) ->
  calls_before key (t + ttl) evs ->
  now < t + ttl ->
  let stored := step st (Resolve key value t) in
  let later := run stored evs in
  table stored !! key = Some (Fulfilled value (t + ttl)) /\
  table later !! key = Some (Fulfilled value (t + ttl)) /\
  settled (step later (Call key caller now)) = settled later ++ [(caller, Ok value)] /\
  runs key (step later (Call key caller now)) = runs key st.
Proof.
  intros Hpending Hcalls Hnow stored later.
  assert (table stored !! key = Some (Fulfilled value (t + ttl)) /\
          runs key stored = runs key st) as [Hstored Hr].
  { subst stored. simpl. unfold resolve. rewrite Hpending. simpl.
    rewrite lookup_insert_eq. split; reflexivity. }
  destruct (fulfilled_kept key value (t + ttl) evs stored Hstored Hcalls)
    as [Hlater Hr'].
  fold later in Hlater, Hr'.
  split; [exact Hstored|]. split; [exact Hlater|].
  simpl. unfold deduplicate. rewrite Hlater.
  destruct (Z.ltb_spec now (t + ttl)) as [_|Hge]; [|lia].
  simpl. split; [reflexivity|]. unfold runs in *. simpl. congruence.
Qed.

End CacheProperties.

(** Three callers ask for the mark prices while one run is in flight: one
    producer run, and the three receive its value, or its failure. *)
Lemma single_flight_witness :
  let pending :=
    Cache.run 30000 (Cache.step 30000 Cache.empty (Cache.Call "markPrices" 1 0))
              Samples.traffic in
  Cache.runs "markPrices" pending = 1%nat /\
  Cache.settled (Cache.step 30000 pending (Cache.Resolve "markPrices" "prices" 9))
  = Cache.settled pending ++ [(1%nat, Ok "prices"%string); (2%nat, Ok "prices"%string);
                              (4%nat, Ok "prices"%string)] /\
  Cache.settled (Cache.step 30000 pending (Cache.Reject "markPrices" (Failure "down") 9))
  = Cache.settled pending ++ [(1%nat, Err (Failure "down")); (2%nat, Err (Failure "down"));
                              (4%nat, Err (Failure "down"))].
Proof.
  assert (Cache.vacant "markPrices" 0 (@Cache.empty string)) as Hvacant
    by (vm_compute; exact I).
  assert (Forall (fun ev => Cache.settles "markPrices" ev = false) Samples.traffic)
    as Hquiet by (repeat constructor).
  destruct (single_flight 30000 "markPrices" 1%nat 0 Samples.traffic Cache.empty
              Hvacant Hquiet) as (_ & Hruns & Hresolve & Hreject).
  split; [exact Hruns|]. split.
  - exact (proj1 (Hresolve "prices"%string 9)).
  - exact (proj1 (Hreject (Failure "down") 9)).
Defined.

(** The mark prices resolve at time 9 with a TTL of 30000: a call at time
    20000 receives the stored value and starts no producer run. *)
Lemma cached_within_ttl_witness :
  let pending :=
    Cache.step 30000 (@Cache.empty string) (Cache.Call "markPrices" 1 0) in
  let stored := Cache.step 30000 pending (Cache.Resolve "markPrices" "prices" 9) in
  let later := Cache.run 30000 stored [Cache.Call "markPrices" 2 100;
                                       Cache.Call "spotBalance_7" 3 40000] in
  Cache.table stored !! "markPrices"%string = Some (Cache.Fulfilled "prices"%string 30009) /\
  Cache.settled (Cache.step 30000 later (Cache.Call "markPrices" 5 20000))
  = Cache.settled later ++ [(5%nat, Ok "prices"%string)] /\
  Cache.runs "markPrices" (Cache.step 30000 later (Cache.Call "markPrices" 5 20000)) = 1%nat.
Proof.
  intros pending stored later.
  assert (Cache.table pending !! "markPrices"%string = Some (Cache.Pending [1%nat]))
    as Hpending by (vm_compute; reflexivity).
  assert (@Cache.calls_before string "markPrices" (9 + 30000)
            [Cache.Call "markPrices" 2 100; Cache.Call "spotBalance_7" 3 40000])
    as Hcalls.
  { repeat constructor. intros Hkey. discriminate Hkey. }
  assert (20000 < 9 + 30000) as Hnow by lia.
  destruct (cached_within_ttl 30000 "markPrices" [1%nat] "prices"%string 9 _ 5%nat 20000
              pending Hpending Hcalls Hnow) as (Hstored & _ & Hsame & Hruns).
  split; [exact Hstored|]. split; [exact Hsame|].
  etransitivity; [exact Hruns|]. vm_compute. reflexivity.
Defined.

(** Of the four sample tokens, the two with a positive balance are shown:
    [vBTC] as [BTC] at the upstream value, [wSOSO] as [SOSO] at its balance. *)
Lemma fetchDetailedBalance_tokens_witness :
  exists r,
    Detailed.fetchDetailedBalance "7" Samples.detailed_futures Samples.detailed_spot = Ok r /\
    Detailed.tokens r
    = [ {| Detailed.token := "BTC"; Detailed.coin := "vBTC";
           Detailed.balance := parseFloat "2"; Detailed.usdValue := parseFloat "100000" |};
        {| Detailed.token := "SOSO"; Detailed.coin := "wSOSO";
           Detailed.balance := parseFloat "10"; Detailed.usdValue := parseFloat "10" |} ].
Proof.
  eexists. split; [vm_compute; reflexivity|].
  destruct (fetchDetailedBalance_tokens "7" Samples.detailed_futures Samples.detailed_spot
              _ eq_refl) as [(spotResponse & Hjson & Htokens) _].
  etransitivity; [exact Htokens|].
  vm_compute in Hjson. injection Hjson as <-. vm_compute. reflexivity.
Defined.


(** * Further properties of [sodex-api.ts] *)

(** ** Pagination that fails or never ends *)

Section PagingProperties.

Import Positions Paging.

Variable net : nat -> option string -> Fetched PositionsResponse.

Lemma fetchPositions_fails n cursor e :
  fails net n (cursor_param cursor) e -> fetchPositions net n cursor = Err e.
Proof.
  unfold fails, fetchPositions.
  destruct (net n (cursor_param cursor)) as [reason|r]; simpl.
  - intros ->. reflexivity.
  - destruct (ok r); simpl.
    + destruct (json r) as [body|e']; simpl.
      * intros [Hcode ->]. rewrite Hcode. reflexivity.
      * intros ->. reflexivity.
    + intros ->. reflexivity.
Qed.

Lemma loop_until n cursor ps e :
  pages_until net n cursor ps e ->
  forall fuel allPositions, (length ps < fuel)%nat ->
    fetchAllPositions_loop net fuel n cursor allPositions
    = Some (Err e, (n + S (length ps))%nat).
Proof.
  induction 1 as [n cursor e Hfails
                 |n cursor items next rest e Hserved Hmore _ IH];
    intros fuel allPositions Hfuel; simpl in Hfuel.
  - destruct fuel as [|fuel]; [lia|]. simpl.
    rewrite (fetchPositions_fails _ _ _ Hfails).
    replace (n + 1)%nat with (S n) by lia. reflexivity.
  - destruct fuel as [|fuel]; [lia|]. simpl.
    rewrite (fetchPositions_served _ _ _ _ _ Hserved), Hmore. simpl.
    rewrite IH by lia.
    replace (S n + S (length rest))%nat with (n + S (S (length rest)))%nat by lia.
    reflexivity.
Qed.

(** X1. When the endpoint serves some pages, each with a cursor to the next,
    and then answers the next request with a failure (a rejected request, a
    status that is not a success, a body that does not parse, or a code that
    is not zero), [fetchAllPositions] rejects with the error of that request
    right after it, one fetch per served page and one for the failing request;
    none of the positions collected from the served pages is returned. *)
Theorem fetchAllPositions_fails ps e :
  pages_until net 0 None ps e ->
  forall fuel, (length ps < fuel)%nat ->
    fetchAllPositions net fuel = Some (Err e, S (length ps)).
Proof.
  intros Huntil fuel Hfuel. unfold fetchAllPositions.
  rewrite (loop_until _ _ _ _ Huntil) by exact Hfuel. reflexivity.
Qed.

Lemma loop_endless :
  endless net ->
  forall fuel n cursor allPositions,
    fetchAllPositions_loop net fuel n cursor allPositions = None.
Proof.
  intros Hendless. induction fuel as [|fuel IH]; intros n cursor allPositions.
  - reflexivity.
  - simpl. destruct (Hendless n (cursor_param cursor)) as (items & next & Hserved & Hmore).
    rewrite (fetchPositions_served _ _ _ _ _ Hserved), Hmore. simpl. apply IH.
Qed.

(** X2. [fetchAllPositions] has no bound on the number of pages: against an
    endpoint that answers every request with a page carrying a non-empty
    [next_cursor], the loop never leaves, however many iterations it is
    given. *)
Theorem fetchAllPositions_endless :
  endless net -> forall fuel, fetchAllPositions net fuel = None.
Proof. intros Hendless fuel. apply loop_endless. exact Hendless. Qed.

End PagingProperties.

Lemma breaks_on_third_until :
  Paging.pages_until Endpoints.breaks_on_third 0 None
    [[Samples.position "1" "1"]; [Samples.position "2" "1"]]
    (Thrown "Failed to fetch positions: Bad Gateway").
Proof.
  eapply Paging.until_next with (next := Some "a"%string);
    [do 2 eexists; repeat split; reflexivity | reflexivity |].
  eapply Paging.until_next with (next := Some "b"%string);
    [do 2 eexists; repeat split; reflexivity | reflexivity |].
  apply Paging.until_fails. reflexivity.
Defined.

Lemma fetchAllPositions_fails_witness :
  Positions.fetchAllPositions Endpoints.breaks_on_third 10
  = Some (Err (Thrown "Failed to fetch positions: Bad Gateway"), 3%nat).
Proof.
  apply (fetchAllPositions_fails Endpoints.breaks_on_third _ _ breaks_on_third_until 10%nat).
  simpl. lia.
Defined.

Lemma looping_endless : Paging.endless Endpoints.looping.
Proof.
  intros n param. exists [Samples.position "1" "1"], (Some "again"%string).
  split; [|reflexivity]. do 2 eexists. repeat split; reflexivity.
Defined.

Lemma fetchAllPositions_endless_witness :
  Positions.fetchAllPositions Endpoints.looping 50 = None.
Proof. apply (fetchAllPositions_endless Endpoints.looping looping_endless 50%nat). Defined.

(** ** Price maps *)

Section PriceMaps.

Import Quotes.

Lemma fold_insert_lookup {A : Type} (key : A -> string) (val : A -> number)
    (l : list A) : forall (m : gmap string number) (k : string),
  fold_left (fun m x => <[key x := val x]> m) l m !! k
  = match last_under key k l with
    | Some x => Some (val x)
    | None => m !! k
    end.
Proof.
  induction l as [|x rest IH]; intros m k; simpl.
  - reflexivity.
  - rewrite IH. destruct (last_under key k rest) as [y|]; [reflexivity|].
    destruct (String.eqb_spec (key x) k) as [<-|Hne].
    + apply lookup_insert_eq.
    + apply lookup_insert_ne. exact Hne.
Qed.

Lemma last_under_snoc {A : Type} (key : A -> string) (l : list A) (x : A) :
  last_under key (key x) (l ++ [x]) = Some x.
Proof.
  induction l as [|y rest IH]; simpl.
  - rewrite String.eqb_refl. reflexivity.
  - rewrite IH. reflexivity.
Qed.

Lemma last_under_key {A : Type} (key : A -> string) (k : string) (l : list A) (x : A) :
  last_under key k l = Some x -> key x = k /\ In x l.
Proof.
  induction l as [|y rest IH]; simpl; [discriminate|].
  destruct (last_under key k rest) as [z|].
  - intros [= ->]. destruct (IH eq_refl) as [Hk Hin]. auto.
  - destruct (String.eqb_spec (key y) k) as [Hk|_]; [|discriminate].
    intros [= ->]. auto.
Qed.

Lemma primaryPriceMap_lookup (markPrices : list Mark.MarkPrice) (k : string) :
  Total.primaryPriceMap_of markPrices !! k
  = primary_price <$> last_under primary_token k markPrices.
Proof.
  unfold Total.primaryPriceMap_of.
  rewrite (fold_insert_lookup primary_token primary_price).
  destruct (last_under primary_token k markPrices); [reflexivity|apply lookup_empty].
Qed.

(** X3. The primary price map [fetchTotalBalance] builds files every quote
    under the part of its symbol before the first [-]; looking a token up
    gives the parsed price of the last quote filed under it, and nothing when
    no quote is filed under it.  A quote therefore replaces any earlier quote
    of the same token. *)
Theorem primaryPriceMap_last_quote (markPrices : list Mark.MarkPrice) :
  (forall k,
     Total.primaryPriceMap_of markPrices !! k
     = primary_price <$> last_under primary_token k markPrices) /\
  (forall mp,
     Total.primaryPriceMap_of (markPrices ++ [mp]) !! primary_token mp
     = Some (primary_price mp)).
Proof.
  split; [apply primaryPriceMap_lookup|].
  intros mp. rewrite primaryPriceMap_lookup, last_under_snoc. reflexivity.
Qed.

(** X4. When the fallback source answers with a success status and a body of
    code 0, [fetchFallbackMarkPrices] returns a map in which a token has the
    parsed [markPrice] of the last entry whose symbol, cut at its first [-],
    is that token, and no entry otherwise. *)
Theorem fetchFallbackMarkPrices_last_quote
    (r : Response Fallback.FallbackMarkPriceResponse)
    (body : Fallback.FallbackMarkPriceResponse) :
  ok r = true ->
  json r = Ok body ->
  code_nonzero (Fallback.code body) = false ->
  exists fallbackPrices,
    Fallback.fetchFallbackMarkPrices (Responded r) = Ok fallbackPrices /\
    forall k,
      fallbackPrices !! k
      = fallback_price <$> last_under fallback_token k (Fallback.data body).
Proof.
  intros Hok Hjson Hcode.
  exists (fold_left Fallback.set_price (Fallback.data body) ∅). split.
  - unfold Fallback.fetchFallbackMarkPrices, deduplicate,
      Fallback.fetchFallbackMarkPrices_producer.
    simpl. rewrite Hok. simpl. rewrite Hjson. simpl. rewrite Hcode. reflexivity.
  - intros k. rewrite (fold_insert_lookup fallback_token fallback_price).
    destruct (last_under fallback_token k (Fallback.data body));
      [reflexivity|apply lookup_empty].
Qed.

Lemma split_head_no_sep (sep : ascii) (s : string) :
  has_char sep (split_head sep s) = false.
Proof.
  induction s as [|c r IH]; simpl; [reflexivity|].
  destruct (Ascii.eqb c sep) eqn:Hc; simpl; [reflexivity|].
  rewrite Hc. exact IH.
Qed.

Lemma split_head_whole (sep : ascii) (s : string) :
  has_char sep s = false -> split_head sep s = s.
Proof.
  induction s as [|c r IH]; simpl; [reflexivity|].
  destruct (Ascii.eqb c sep); simpl; [discriminate|].
  intros H. rewrite IH by exact H. reflexivity.
Qed.

Lemma split_head_cut (sep : ascii) (a b : string) :
  has_char sep a = false -> split_head sep (a +:+ String sep b) = a.
Proof.
  induction a as [|c r IH]; simpl.
  - rewrite Ascii.eqb_refl. reflexivity.
  - destruct (Ascii.eqb c sep); simpl; [discriminate|].
    intros H. rewrite IH by exact H. reflexivity.
Qed.

(** X5. The token a quote is filed under is its symbol up to the first [-]:
    a symbol [a-b] with no [-] in [a] is filed under [a], whatever [b] holds
    (further [-] included); a symbol without [-] is filed under itself; and
    no token a quote is filed under holds a [-].  So a spot token whose
    normalized name holds a [-] finds no price in the primary map, nor in a
    fallback map built from quotes, and adds nothing to the spot sum. *)
Theorem quote_token_cut :
  (forall a b, has_char "-" a = false -> split_head "-" (a +:+ String "-" b) = a) /\
  (forall s, has_char "-" s = false -> split_head "-" s = s) /\
  (forall markPrices fallbackQuotes token spotBalanceUSD,
     has_char "-" (normalizeTokenName (Spot.coin token)) = true ->
     Total.add_token (Total.primaryPriceMap_of markPrices)
                     (fold_left Fallback.set_price fallbackQuotes ∅)
                     spotBalanceUSD token
     = spotBalanceUSD).
Proof.
  split; [|split].
  - intros a b. apply split_head_cut.
  - intros s. apply split_head_whole.
  - intros markPrices fallbackQuotes token acc Hdash.
    apply add_token_unpriced. unfold Total.resolve_price.
    rewrite primaryPriceMap_lookup.
    destruct (last_under primary_token _ markPrices) as [q|] eqn:Hq.
    { apply last_under_key in Hq. destruct Hq as [Hk _].
      unfold primary_token in Hk. rewrite <- Hk, split_head_no_sep in Hdash.
      discriminate. }
    simpl. rewrite (fold_insert_lookup fallback_token fallback_price).
    destruct (last_under fallback_token _ fallbackQuotes) as [q|] eqn:Hq'.
    { apply last_under_key in Hq'. destruct Hq' as [Hk _].
      unfold fallback_token in Hk. rewrite <- Hk, split_head_no_sep in Hdash.
      discriminate. }
    apply lookup_empty.
Qed.

End PriceMaps.

(** The fallback source quotes [SOSO] twice: the later quote is the one kept. *)
Lemma fetchFallbackMarkPrices_last_quote_witness :
  exists fallbackPrices,
    Fallback.fetchFallbackMarkPrices
      (Samples.fallbacks [Samples.fallback_quote "SOSO-USD" "0.5";
                          Samples.fallback_quote "SILVER-USD" "30";
                          Samples.fallback_quote "SOSO-USD" "0.6"])
    = Ok fallbackPrices /\
    fallbackPrices !! "SOSO"%string = Some (parseFloat "0.6") /\
    fallbackPrices !! "GOLD"%string = None.
Proof.
  destruct (fetchFallbackMarkPrices_last_quote
              (mkResponse true "OK"
                 (Ok {| Fallback.code := zero;
                        Fallback.data := [Samples.fallback_quote "SOSO-USD" "0.5";
                                          Samples.fallback_quote "SILVER-USD" "30";
                                          Samples.fallback_quote "SOSO-USD" "0.6"] |}))
              _ eq_refl eq_refl eq_refl) as (fallbackPrices & Hfetch & Hlook).
  exists fallbackPrices. split; [exact Hfetch|].
  split; rewrite Hlook; reflexivity.
Defined.

(** ** What spoils or stops the total *)

Section Spoiled.

Import Total.

Lemma add_NaN_l (b : number) : add NaN b = NaN.
Proof. destruct b as [[]|[]| |[] m e]; reflexivity. Qed.

Lemma add_NaN_r (a : number) : add a NaN = NaN.
Proof. destruct a as [[]|[]| |[] m e]; reflexivity. Qed.

Lemma mul_NaN_l (b : number) : mul NaN b = NaN.
Proof. destruct b as [[]|[]| |[] m e]; reflexivity. Qed.

Lemma mul_NaN_r (a : number) : mul a NaN = NaN.
Proof. destruct a as [[]|[]| |[] m e]; reflexivity. Qed.

Lemma is_nan_NaN (a : number) : is_nan a = true -> a = NaN.
Proof. destruct a; simpl; intros H; [discriminate..|reflexivity|discriminate]. Qed.

Variables primaryPriceMap fallbackPrices : gmap string number.

Lemma add_token_NaN token :
  add_token primaryPriceMap fallbackPrices NaN token = NaN.
Proof.
  unfold add_token.
  destruct (resolve_price _ _ _); [apply add_NaN_l|reflexivity].
Qed.

Lemma fold_add_token_NaN tokens :
  fold_left (add_token primaryPriceMap fallbackPrices) tokens NaN = NaN.
Proof.
  induction tokens as [|t rest IH]; simpl; [reflexivity|].
  rewrite add_token_NaN. exact IH.
Qed.

Lemma spotBalanceUSD_spoiled before token after price :
  resolve_price primaryPriceMap fallbackPrices (normalizeTokenName (Spot.coin token))
  = Some price ->
  is_nan (parseFloat (Spot.balance token)) = true \/ is_nan price = true ->
  spotBalanceUSD_of primaryPriceMap fallbackPrices (before ++ token :: after) = NaN.
Proof.
  intros Hprice Hnan. unfold spotBalanceUSD_of.
  rewrite fold_left_app. simpl.
  assert (add_token primaryPriceMap fallbackPrices
            (fold_left (add_token primaryPriceMap fallbackPrices) before zero) token
          = NaN) as ->.
  { unfold add_token. rewrite Hprice.
    destruct Hnan as [Hnan|Hnan]; rewrite (is_nan_NaN _ Hnan).
    - rewrite mul_NaN_l. apply add_NaN_r.
    - rewrite mul_NaN_r. apply add_NaN_r. }
  apply fold_add_token_NaN.
Qed.

End Spoiled.

(** X6. [fetchTotalBalance] does not check that what it parses is a number:
    if one spot token resolves to a price (from either map) and its balance,
    or that price, is NaN (a balance or a quote that [parseFloat] cannot
    read), the spot sum is NaN, and so is the total, whatever the other
    tokens and the futures balance are. *)
Theorem unparsable_amount_spoils_total
    (accountData : Futures.AccountDetailsData) (markPrices : list Mark.MarkPrice)
    (fallbackPrices : gmap string number)
    (before after : list Spot.SpotBalance) (token : Spot.SpotBalance) (price : number) :
  Total.resolve_price (Total.primaryPriceMap_of markPrices) fallbackPrices
    (normalizeTokenName (Spot.coin token)) = Some price ->
  is_nan (parseFloat (Spot.balance token)) = true \/ is_nan price = true ->
  let r := Total.aggregate accountData (before ++ token :: after) markPrices fallbackPrices in
  Total.spotBalance r = NaN /\ Total.totalBalance r = NaN.
Proof.
  intros Hprice Hnan. simpl.
  rewrite (spotBalanceUSD_spoiled _ _ _ _ _ _ Hprice Hnan).
  split; [reflexivity|apply add_NaN_l].
Qed.

(** The primary quote of [BTC] reads ["n/a"]; the fallback source has a good
    quote for it, which is not consulted. *)
Lemma unparsable_amount_spoils_total_witness :
  Total.totalBalance
    (Total.aggregate (Samples.account_data [Samples.wallet "250.5"])
       ([Samples.spot_token "vETH" "1"] ++ Samples.spot_token "vBTC" "2"
          :: [Samples.spot_token "USDC" "100"])
       [Samples.quote "BTC-USD" "n/a"; Samples.quote "ETH-USD" "3000"]
       (<["BTC"%string := parseFloat "50000"]> ∅))
  = NaN.
Proof.
  refine (proj2 (unparsable_amount_spoils_total _ _ _ _ _ _ NaN _ _)).
  - vm_compute. reflexivity.
  - right. reflexivity.
Defined.

Section Outcome.

Import Total Answers.










End Outcome.

(** ** Normalizing twice *)

(** X8. Normalizing a token name a second time changes nothing as long as the
    name, once its leading [v] is stripped, does not start with another [v]. *)
Theorem normalizeTokenName_idempotent (coin : string) :
  startsWith (NormalizationPolicy.strip_one_v coin) "v" = false ->
  normalizeTokenName (normalizeTokenName coin) = normalizeTokenName coin.
Proof.
  intros Hv.
  rewrite (normalizeTokenName_unfold coin). cbv zeta.
  set (n := NormalizationPolicy.strip_one_v coin) in *.
  destruct (String.eqb_spec n "SOSO") as [->|N1]; [reflexivity|].
  destruct (String.eqb_spec n "WSOSO") as [->|N2]; [reflexivity|].
  destruct (String.eqb_spec n "MAG7.ssi") as [->|N3]; [reflexivity|].
  destruct (String.eqb_spec n "USDC") as [->|N4]; [reflexivity|].
  simpl. rewrite normalizeTokenName_unfold. cbv zeta.
  assert (NormalizationPolicy.strip_one_v n = n) as ->.
  { destruct n as [|c rest]; [reflexivity|].
    destruct c as [[] [] [] [] [] [] [] []]; try reflexivity. discriminate Hv. }
  destruct (String.eqb_spec n "SOSO") as [E|_]; [contradiction|].
  destruct (String.eqb_spec n "WSOSO") as [E|_]; [contradiction|].
  destruct (String.eqb_spec n "MAG7.ssi") as [E|_]; [contradiction|].
  destruct (String.eqb_spec n "USDC") as [E|_]; [contradiction|].
  reflexivity.
Qed.

Lemma normalizeTokenName_idempotent_witness :
  normalizeTokenName (normalizeTokenName "vWSOSO") = normalizeTokenName "vWSOSO".
Proof. apply (normalizeTokenName_idempotent "vWSOSO"). reflexivity. Defined.

(** ** More on the detailed balance *)

Section DetailedProperties.

Import Detailed.

Lemma fetchDetailedBalance_ok_inv userId futuresNet spotNet r :
  fetchDetailedBalance userId futuresNet spotNet = Ok r ->
  exists futuresResponse spotResponse,
    fetch_json futuresNet = Ok futuresResponse /\
    fetch_json spotNet = Ok spotResponse /\
    code_nonzero (FuturesJson.code futuresResponse) = false /\
    code_nonzero (SpotJson.code spotResponse) = false /\
    r = {| totalUsdValue :=
             add (totalUsdtAmount_value (SpotJson.data spotResponse))
                 (parseFloat (walletBalance_or_zero (FuturesJson.data futuresResponse)));
           tokens := tokens_of (SpotJson.data spotResponse);
           futuresBalance :=
             parseFloat (walletBalance_or_zero (FuturesJson.data futuresResponse));
           spotBalance := totalUsdtAmount_value (SpotJson.data spotResponse) |}.
Proof.
  unfold fetchDetailedBalance, deduplicate, fetchDetailedBalance_producer, try_rethrow.
  destruct (fetch_json futuresNet) as [futuresResponse|ef]; [|discriminate].
  destruct (fetch_json spotNet) as [spotResponse|es]; [|discriminate].
  simpl.
  destruct (code_nonzero (FuturesJson.code futuresResponse)) eqn:Hf; [discriminate|].
  destruct (code_nonzero (SpotJson.code spotResponse)) eqn:Hs; [discriminate|].
  simpl. intros [= <-]. exists futuresResponse, spotResponse.
  repeat split; try reflexivity; assumption.
Qed.

(** X9. [fetchDetailedBalance] never looks at the HTTP status of its two
    responses: it returns a balance exactly when both requests are answered
    with bodies that parse and whose codes are zero, whatever [ok] and
    [statusText] say. *)
Theorem fetchDetailedBalance_succeeds_iff userId futuresNet spotNet :
  (exists r, fetchDetailedBalance userId futuresNet spotNet = Ok r)
  <-> exists fr sr futuresResponse spotResponse,
        futuresNet = Responded fr /\ json fr = Ok futuresResponse /\
        spotNet = Responded sr /\ json sr = Ok spotResponse /\
        code_nonzero (FuturesJson.code futuresResponse) = false /\
        code_nonzero (SpotJson.code spotResponse) = false.
Proof.
  split.
  - intros [r Hr].
    destruct (fetchDetailedBalance_ok_inv _ _ _ _ Hr)
      as (fb & sb & Hf & Hs & Hcf & Hcs & _).
    destruct futuresNet as [reason|fr]; [discriminate|].
    destruct spotNet as [reason|sr]; [discriminate|].
    exists fr, sr, fb, sb. change (json fr = Ok fb) in Hf. change (json sr = Ok sb) in Hs.
    auto 10.
  - intros (fr & sr & fb & sb & -> & Hf & -> & Hs & Hcf & Hcs).
    unfold fetchDetailedBalance, deduplicate, fetchDetailedBalance_producer, try_rethrow.
    change (fetch_json (Responded fr)) with (json fr).
    change (fetch_json (Responded sr)) with (json sr).
    rewrite Hf, Hs. simpl. rewrite Hcf, Hcs. simpl. eauto.
Qed.

(** X10. When both bodies parse and at least one of the two codes is not
    zero, [fetchDetailedBalance] rejects with the balance-data error that
    reports both codes; nothing of either body is returned. *)
Theorem fetchDetailedBalance_code_error userId fr sr futuresResponse spotResponse :
  json fr = Ok futuresResponse ->
  json sr = Ok spotResponse ->
  code_nonzero (FuturesJson.code futuresResponse) = true \/
  code_nonzero (SpotJson.code spotResponse) = true ->
  fetchDetailedBalance userId (Responded fr) (Responded sr)
  = Err (BalanceDataError (FuturesJson.code futuresResponse)
                          (SpotJson.code spotResponse)).
Proof.
  intros Hf Hs Hcode.
  unfold fetchDetailedBalance, deduplicate, fetchDetailedBalance_producer, try_rethrow.
  change (fetch_json (Responded fr)) with (json fr).
  change (fetch_json (Responded sr)) with (json sr).
  rewrite Hf, Hs. simpl.
  destruct Hcode as [-> | ->]; [reflexivity|].
  rewrite orb_true_r. reflexivity.
Qed.

(** X11. Every token [fetchDetailedBalance] returns has a strictly positive
    balance and a strictly positive [usdValue], and there are no more tokens
    than the response lists. *)
Theorem fetchDetailedBalance_tokens_positive userId futuresNet spotNet r :
  fetchDetailedBalance userId futuresNet spotNet = Ok r ->
  Forall (fun shown => gtb (balance shown) zero = true /\
                       gtb (usdValue shown) zero = true) (tokens r) /\
  exists spotResponse,
    fetch_json spotNet = Ok spotResponse /\
    (length (tokens r) <= length (spot_tokens spotResponse))%nat.
Proof.
  intros Hok.
  destruct (fetchDetailedBalance_ok_inv _ _ _ _ Hok)
    as (fb & sb & _ & Hs & _ & _ & ->).
  simpl. rewrite tokens_of_displayed. split.
  - apply Forall_forall. intros shown Hin.
    apply list_elem_of_In in Hin.
    apply in_map_iff in Hin. destruct Hin as (tokenData & <- & Hin).
    apply filter_In in Hin. destruct Hin as [_ Hpos].
    split; [exact Hpos|]. simpl. unfold upstream_usdValue.
    destruct (SpotJson.usdValue tokenData) as [u|]; [|exact Hpos].
    destruct (gtb (parseFloat u) zero) eqn:Hu; [exact Hu|exact Hpos].
  - exists sb. split; [exact Hs|].
    rewrite length_map. apply List.filter_length_le.
Qed.

(** X12. In the record [fetchDetailedBalance] returns, [totalUsdValue] is the
    sum of [spotBalance] and [futuresBalance]; [spotBalance] is the
    [totalUsdtAmount] of the spot response when that is a number other than
    0 and NaN and zero otherwise, so it does not depend on the listed tokens;
    [futuresBalance] is zero when the futures data, its balances or their
    first entry is missing. *)
Theorem fetchDetailedBalance_totals userId futuresNet spotNet r :
  fetchDetailedBalance userId futuresNet spotNet = Ok r ->
  totalUsdValue r = add (spotBalance r) (futuresBalance r) /\
  exists futuresResponse spotResponse,
    fetch_json futuresNet = Ok futuresResponse /\
    fetch_json spotNet = Ok spotResponse /\
    spotBalance r
    = match SpotJson.data spotResponse ≫= SpotJson.totalUsdtAmount with
      | Some n => if truthy n then n else zero
      | None => zero
      end /\
    match FuturesJson.data futuresResponse ≫= FuturesJson.balances with
    | Some (first :: _) =>
        Futures.walletBalance first <> ""%string ->
        futuresBalance r = parseFloat (Futures.walletBalance first)
    | _ => futuresBalance r = zero
    end.
Proof.
  intros Hok.
  destruct (fetchDetailedBalance_ok_inv _ _ _ _ Hok)
    as (fb & sb & Hf & Hs & _ & _ & ->).
  split; [reflexivity|].
  exists fb, sb. split; [exact Hf|]. split; [exact Hs|]. simpl. split.
  - unfold totalUsdtAmount_value.
    destruct (SpotJson.data sb) as [d|]; simpl; [|reflexivity].
    destruct (SpotJson.totalUsdtAmount d) as [n|]; simpl; [|reflexivity].
    destruct n as [[]|[]| |[] m e]; reflexivity.
  - unfold walletBalance_or_zero.
    destruct (FuturesJson.data fb) as [d|]; simpl; [|reflexivity].
    destruct (FuturesJson.balances d) as [[|first rest]|]; simpl; try reflexivity.
    intros Hne. rewrite or_zero_nonempty by exact Hne. reflexivity.
Qed.

End DetailedProperties.

(** The spot service answers 200 with code 500 and no data. *)
Lemma fetchDetailedBalance_code_error_witness :
  Detailed.fetchDetailedBalance "7" Samples.detailed_futures
    (success {| Detailed.SpotJson.code := parseFloat "500";
                Detailed.SpotJson.data := None |})
  = Err (BalanceDataError zero (parseFloat "500")).
Proof.
  apply (fetchDetailedBalance_code_error "7"
           (mkResponse true "OK"
              (Ok {| Detailed.FuturesJson.code := zero;
                     Detailed.FuturesJson.data :=
                       Some {| Detailed.FuturesJson.balances :=
                                 Some [Samples.wallet "250.5"] |} |}))
           (mkResponse true "OK"
              (Ok {| Detailed.SpotJson.code := parseFloat "500";
                     Detailed.SpotJson.data := None |}))
           _ _ eq_refl eq_refl).
  right. reflexivity.
Defined.

Lemma fetchDetailedBalance_tokens_positive_witness :
  exists r,
    Detailed.fetchDetailedBalance "7" Samples.detailed_futures Samples.detailed_spot = Ok r /\
    length (Detailed.tokens r) = 2%nat /\
    Forall (fun shown => gtb (Detailed.balance shown) zero = true /\
                         gtb (Detailed.usdValue shown) zero = true) (Detailed.tokens r).
Proof.
  eexists. split; [vm_compute; reflexivity|]. split; [reflexivity|].
  refine (proj1 (fetchDetailedBalance_tokens_positive "7" Samples.detailed_futures
                   Samples.detailed_spot _ _)).
  vm_compute. reflexivity.
Defined.

Lemma fetchDetailedBalance_totals_witness :
  exists r,
    Detailed.fetchDetailedBalance "7" Samples.detailed_futures Samples.detailed_spot = Ok r /\
    Detailed.totalUsdValue r = add (Detailed.spotBalance r) (Detailed.futuresBalance r) /\
    Detailed.totalUsdValue r = parseFloat "100255.5".
Proof.
  eexists. split; [vm_compute; reflexivity|]. split.
  - refine (proj1 (fetchDetailedBalance_totals "7" Samples.detailed_futures
                     Samples.detailed_spot _ _)).
    vm_compute. reflexivity.
  - vm_compute. reflexivity.
Defined.

(** ** Symbols and closed positions *)

Example Math_round_samples :
  Math_round (parseFloat "2.5") = parseFloat "3" /\
  Math_round (parseFloat "-2.5") = parseFloat "-2" /\
  Math_round (parseFloat "2.4999") = parseFloat "2" /\
  Math_round (parseFloat "-0.2") = parseFloat "-0" /\
  Math_round (parseFloat "0.49999999999999994") = zero /\
  Math_round (parseFloat "1234567.5") = parseFloat "1234568" /\
  Math_round (parseFloat "1e300") = parseFloat "1e300" /\
  Math_round NaN = NaN /\
  of_Z 1 = parseFloat "1" /\ of_Z 1000 = parseFloat "1000" /\
  parseInt "3" = of_Z 3 /\ parseInt " 2px" = of_Z 2 /\ parseInt "0x1F" = of_Z 31 /\
  parseInt "-0" = S754_zero true /\ parseInt "1e3" = of_Z 1 /\ parseInt "3.9" = of_Z 3 /\
  parseInt "" = NaN /\ parseInt "LONG" = NaN /\ parseInt "0x" = NaN /\
  parseInt "12345678901234567890" = parseFloat "12345678901234567890" /\
  div (sub (parseFloat "1700000123456") (parseFloat "1700000000000")) (of_Z 1000)
  = parseFloat "123.456".
Proof. repeat split; reflexivity. Qed.

Section SymbolProperties.

Import Symbols Enrich.

Lemma fold_set_symbol (l : list SymbolData) : forall (m : gmap number SymbolData) id,
  get (fold_left set_symbol l m) id
  = match last_with_id id l with
    | Some sym => Some sym
    | None => get m id
    end.
Proof.
  induction l as [|x rest IH]; intros m id; simpl.
  - reflexivity.
  - rewrite IH. destruct (last_with_id id rest) as [y|]; [reflexivity|].
    unfold get, set_symbol. destruct (decide (map_key (symbolID x) = map_key id)) as [->|Hne].
    + apply lookup_insert_eq.
    + apply lookup_insert_ne. exact Hne.
Qed.

Lemma fetchSymbols_accepted r body :
  ok r = true -> json r = Ok body -> code_nonzero (Symbols.code body) = false ->
  fetchSymbols (Responded r) = Ok (fold_left set_symbol (values (Symbols.data body)) ∅).
Proof.
  intros Hok Hjson Hcode. unfold fetchSymbols. simpl.
  rewrite Hok. simpl. rewrite Hjson. simpl. rewrite Hcode. reflexivity.
Qed.

Lemma get_fetched (l : list SymbolData) id :
  get (fold_left set_symbol l ∅) id = last_with_id id l.
Proof.
  rewrite fold_set_symbol. destruct (last_with_id id l); [reflexivity|].
  unfold get. apply lookup_empty.
Qed.

(** X13. When the symbols service answers with a success status and a body
    of code 0, [fetchSymbols] returns a map in which [get(id)] is the last
    symbol, in the order of [Object.values], whose [symbolID] is [id] as a map
    key ([-0] and [0] being the same key), and is undefined when no symbol has
    that id. *)
Theorem fetchSymbols_last_symbol r body :
  ok r = true ->
  json r = Ok body ->
  code_nonzero (Symbols.code body) = false ->
  exists symbolMap,
    fetchSymbols (Responded r) = Ok symbolMap /\
    forall id, get symbolMap id = last_with_id id (values (Symbols.data body)).
Proof.
  intros Hok Hjson Hcode. eexists. split.
  - apply fetchSymbols_accepted; eassumption.
  - intros id. apply get_fetched.
Qed.

Variable toString : number -> string.
Variable toLocaleString : number -> string.



(** X15. The [pairName] of an enriched position is the name of the last
    listed symbol whose id is the position's [symbol_id], when there is one
    and its name is not empty, and [SYMBOL_] followed by the id otherwise. *)
Theorem enrichPositions_pairName positions r body enriched :
  ok r = true ->
  json r = Ok body ->
  code_nonzero (Symbols.code body) = false ->
  enrichPositions toString toLocaleString positions (Responded r) = Ok enriched ->
  Forall (fun e =>
            pairName e
            = match last_with_id (Positions.symbol_id (position e))
                                 (values (Symbols.data body)) with
              | Some sym =>
                  if String.eqb (Symbols.name sym) ""
                  then "SYMBOL_" +:+ toString (Positions.symbol_id (position e))
                  else Symbols.name sym
              | None => "SYMBOL_" +:+ toString (Positions.symbol_id (position e))
              end) enriched.
Proof.
  intros Hok Hjson Hcode. unfold enrichPositions.
  rewrite (fetchSymbols_accepted _ _ Hok Hjson Hcode). simpl. intros [= <-].
  apply Forall_forall. intros e He. apply list_elem_of_In in He.
  apply in_map_iff in He. destruct He as (p & <- & _). simpl.
  rewrite get_fetched. reflexivity.
Qed.

End SymbolProperties.

(** Symbol 1 is listed twice: the later entry is the one found. *)
Lemma fetchSymbols_last_symbol_witness :
  exists symbolMap,
    Symbols.fetchSymbols (success Listing.listing) = Ok symbolMap /\
    Symbols.get symbolMap (parseFloat "1") = Some (Listing.symbol "1" "BTC-PERP") /\
    Symbols.get symbolMap (parseFloat "9") = None.
Proof.
  destruct (fetchSymbols_last_symbol (mkResponse true "OK" (Ok Listing.listing))
              Listing.listing eq_refl eq_refl eq_refl) as (symbolMap & Hfetch & Hget).
  exists symbolMap. split; [exact Hfetch|].
  split; rewrite Hget; vm_compute; reflexivity.
Defined.

(** Three closed positions: one in a symbol listed twice, one in a symbol
    with an empty name, one in an unlisted symbol. *)
Lemma enrichPositions_pairName_witness :
  exists enriched,
    Enrich.enrichPositions Listing.show_integer Listing.show_date
      [Listing.position_in "1" "2" "101"; Listing.position_in "2" "1" "5";
       Listing.position_in "1" "0" "101"; Listing.position_in "9" "1" "7"]
      (success Listing.listing) = Ok enriched /\
    Forall (fun e =>
              Enrich.pairName e
              = match Symbols.last_with_id (Positions.symbol_id (Enrich.position e))
                        (Symbols.values (Symbols.data Listing.listing)) with
                | Some sym =>
                    if String.eqb (Symbols.name sym) ""
                    then "SYMBOL_" +:+ Listing.show_integer
                                         (Positions.symbol_id (Enrich.position e))
                    else Symbols.name sym
                | None => "SYMBOL_" +:+ Listing.show_integer
                                          (Positions.symbol_id (Enrich.position e))
                end) enriched /\
    map Enrich.pairName enriched = ["BTC-PERP"; "SYMBOL_2"; "SYMBOL_9"]%string.
Proof.
  eexists. split; [reflexivity|]. split.
  - apply (enrichPositions_pairName Listing.show_integer Listing.show_date
             [Listing.position_in "1" "2" "101"; Listing.position_in "2" "1" "5";
              Listing.position_in "1" "0" "101"; Listing.position_in "9" "1" "7"]
             (mkResponse true "OK" (Ok Listing.listing)) Listing.listing);
      reflexivity.
  - vm_compute. reflexivity.
Defined.

(** ** Open positions and the PnL overview *)

Section OverviewProperties.

Import Overview.

(** X16. [fetchOpenPositions] returns the positions of the account details
    body exactly when the service answers with a success status and a body
    that parses, has code 0 and holds [data] with both [positions] and
    [balances]; it rejects in every other case, also when only [balances] is
    missing. *)
Theorem fetchOpenPositions_iff userId net positions :
  fetchOpenPositions userId net = Ok positions
  <-> exists r body d balances,
        net = Responded r /\ ok r = true /\ json r = Ok body /\
        code_nonzero (Futures.code body) = false /\
        Futures.data body = Some d /\
        Futures.body_positions d = Some positions /\
        Futures.body_balances d = Some balances.
Proof.
  unfold fetchOpenPositions, Futures.fetchAccountDetails, deduplicate,
    Futures.fetchAccountDetails_producer, Futures.logged.
  destruct net as [reason|r]; simpl.
  - split; [discriminate|intros (r & body & d & bs & Hr & _); discriminate].
  - destruct (ok r) eqn:Hok; simpl.
    + destruct (json r) as [body|e] eqn:Hjson; simpl.
      * destruct (code_nonzero (Futures.code body)) eqn:Hcode; simpl.
        -- split; [discriminate|].
           intros (r' & body' & d & bs & [= <-] & _ & Hj & Hc & _). congruence.
        -- destruct (Futures.data body) as [d|] eqn:Hd; simpl.
           ++ destruct (Futures.body_positions d) as [ps|] eqn:Hp;
                destruct (Futures.body_balances d) as [bs|] eqn:Hb; simpl.
              ** split.
                 --- intros [= <-]. exists r, body, d, bs. auto 10.
                 --- intros (r' & body' & d' & bs' & [= <-] & _ & Hj & _ & Hd' & Hp' & _).
                     congruence.
              ** split; [discriminate|].
                 intros (r' & body' & d' & bs' & [= <-] & _ & Hj & _ & Hd' & _ & Hb').
                 congruence.
              ** split; [discriminate|].
                 intros (r' & body' & d' & bs' & [= <-] & _ & Hj & _ & Hd' & Hp' & _).
                 congruence.
              ** split; [discriminate|].
                 intros (r' & body' & d' & bs' & [= <-] & _ & Hj & _ & Hd' & Hp' & _).
                 congruence.
           ++ split; [discriminate|].
              intros (r' & body' & d' & bs' & [= <-] & _ & Hj & _ & Hd' & _).
              congruence.
      * split; [discriminate|].
        intros (r' & body' & d & bs & [= <-] & _ & Hj & _). congruence.
    + split; [discriminate|].
      intros (r' & body' & d & bs & [= <-] & Hok' & _). congruence.
Qed.

(** X17. [fetchPnLOverview] returns the overview exactly when the route
    answers with a success status and a body that parses, carries no error
    (none, or an empty one) and carries the data; in every other case it
    rejects. *)
Theorem fetchPnLOverview_iff userId net overview :
  fetchPnLOverview userId net = Ok overview
  <-> exists r result,
        net = Responded r /\ ok r = true /\ json r = Ok result /\
        error_truthy (error result) = false /\ data result = Some overview.
Proof.
  unfold fetchPnLOverview, deduplicate, fetchPnLOverview_producer.
  destruct net as [reason|r]; simpl.
  - split; [discriminate|intros (r & result & Hr & _); discriminate].
  - destruct (ok r) eqn:Hok; simpl.
    + destruct (json r) as [result|e] eqn:Hjson; simpl.
      * destruct (error_truthy (error result)) eqn:Herr.
        -- split; [discriminate|].
           intros (r' & result' & [= <-] & _ & Hj & He & _). congruence.
        -- destruct (data result) as [d|] eqn:Hdata.
           ++ split.
              ** intros [= <-]. exists r, result. auto.
              ** intros (r' & result' & [= <-] & _ & Hj & _ & Hd). congruence.
           ++ split; [discriminate|].
              intros (r' & result' & [= <-] & _ & Hj & _ & Hd). congruence.
      * split; [discriminate|].
        intros (r' & result' & [= <-] & _ & Hj & _). congruence.
    + split; [discriminate|].
      intros (r' & result' & [= <-] & Hok' & _). congruence.
Qed.

(** X18. A non-empty [error] in the body of a success response makes
    [fetchPnLOverview] reject with exactly that message, also when the body
    carries data. *)
Theorem fetchPnLOverview_error userId r result message :
  ok r = true ->
  json r = Ok result ->
  error result = Some message ->
  message <> ""%string ->
  fetchPnLOverview userId (Responded r) = Err (Thrown message).
Proof.
  intros Hok Hjson Herr Hmsg.
  unfold fetchPnLOverview, deduplicate, fetchPnLOverview_producer. simpl.
  rewrite Hok. simpl. rewrite Hjson. simpl. rewrite Herr. simpl.
  destruct (String.eqb_spec message "") as [E|_]; [contradiction|]. reflexivity.
Qed.

(** X19. [getVolumeFromPnLOverview] reads an empty volume as zero and any
    other volume as [parseFloat] does; its result is NaN only for a volume
    string that is not empty and does not start with a number. *)
Theorem getVolumeFromPnLOverview_value pnlData :
  (cumulative_quote_volume pnlData = ""%string ->
   getVolumeFromPnLOverview pnlData = zero) /\
  (cumulative_quote_volume pnlData <> ""%string ->
   getVolumeFromPnLOverview pnlData = parseFloat (cumulative_quote_volume pnlData)) /\
  (is_nan (getVolumeFromPnLOverview pnlData) = true ->
   cumulative_quote_volume pnlData <> ""%string /\
   is_nan (parseFloat (cumulative_quote_volume pnlData)) = true).
Proof.
  unfold getVolumeFromPnLOverview. split; [|split].
  - intros ->. reflexivity.
  - intros Hne. rewrite or_zero_nonempty by exact Hne. reflexivity.
  - destruct (String.eqb_spec (cumulative_quote_volume pnlData) "") as [->|Hne].
    + discriminate.
    + rewrite or_zero_nonempty by exact Hne. auto.
Qed.

End OverviewProperties.

(** The route answers 200 with an error and stale data. *)
Lemma fetchPnLOverview_error_witness :
  Overview.fetchPnLOverview "7"
    (success {| Overview.data :=
                  Some {| Overview.account_id := parseFloat "7";
                          Overview.ts_ms := parseFloat "1700000000000";
                          Overview.cumulative_pnl := "12.5";
                          Overview.cumulative_quote_volume := "1000";
                          Overview.unrealized_pnl := "0" |};
                Overview.error := Some "upstream timeout"%string;
                Overview.fromCache := Some true |})
  = Err (Thrown "upstream timeout").
Proof.
  eapply (fetchPnLOverview_error "7" (mkResponse true "OK" _) _ "upstream timeout");
    [reflexivity | reflexivity | reflexivity | discriminate].
Defined.

(** * Properties of the cached status route *)

Section RouteProperties.

Import DexStatus.

Variable JSON_stringify : CachedDexData -> string.
Variable JSON_parse : string -> Result CachedDexData.

Abbreviation refresh := (fetchAndCalculateDexData JSON_stringify).



(** What a refresh that succeeds did and returns. *)
Lemma refresh_ok_inv w data done :
  refresh w = (Ok data, done) ->
  exists ts vs,
    served (traders w) ts /\ served (volumes w) vs /\
    (exists u, setex w = Ok u) /\
    data = {| volumeData := Some vs;
              traderStats := Some (stats_of ts);
              lastUpdated := clock w |} /\
    done = [Fetch GITHUB_TRADERS_URL; Fetch GITHUB_VOLUME_URL;
            RedisSetex CACHE_KEY CACHE_DURATION (JSON_stringify data)].
Proof.
  unfold fetchAndCalculateDexData, served.
  destruct (traders w) as [reason|tr]; simpl; [discriminate|].
  destruct (reply_ok tr) eqn:Htr; simpl; [|discriminate].
  destruct (body tr) as [ts|e] eqn:Hts; simpl; [|discriminate].
  destruct (volumes w) as [reason|vr]; simpl; [discriminate|].
  destruct (reply_ok vr) eqn:Hvr; simpl; [|discriminate].
  destruct (body vr) as [vs|e] eqn:Hvs; simpl; [|discriminate].
  destruct (setex w) as [u|e] eqn:Hset; simpl; [|discriminate].
  intros [= <- <-]. exists ts, vs.
  split; [eauto|]. split; [eauto|]. split; [eauto|]. split; reflexivity.
Qed.


(** X21. A refresh that succeeds has fetched the traders file, then the
    volume file, and then written to Redis once: under the key
    [dex-status-cache], for 1800 seconds, the serialized form of the very data
    it returns, whose [lastUpdated] is the time read from the clock. *)
Theorem refresh_writes_once w data done :
  refresh w = (Ok data, done) ->
  done = [Fetch GITHUB_TRADERS_URL; Fetch GITHUB_VOLUME_URL;
          RedisSetex "dex-status-cache" 1800 (JSON_stringify data)] /\
  lastUpdated data = clock w.
Proof.
  intros Hok. destruct (refresh_ok_inv _ _ _ Hok) as (ts & vs & _ & _ & _ & Hdata & ->).
  split; [reflexivity|]. rewrite Hdata. reflexivity.
Qed.

(** X22. A refresh works in sequence and stops at the first failure: the
    volume file is requested only once the traders file has been served, and
    a write to Redis happens only once both files have been served. *)
Theorem refresh_stops_at_failure w :
  (In (Fetch GITHUB_VOLUME_URL) (snd (refresh w)) ->
   exists ts, served (traders w) ts) /\
  (forall key seconds value,
     In (RedisSetex key seconds value) (snd (refresh w)) ->
     (exists ts, served (traders w) ts) /\ (exists vs, served (volumes w) vs)).
Proof.
  unfold fetchAndCalculateDexData, served.
  destruct (traders w) as [reason|tr]; simpl.
  { split; [intros [H|[]]; discriminate H|intros ? ? ? [H|[]]; discriminate H]. }
  destruct (reply_ok tr) eqn:Htr; simpl.
  2:{ split; [intros [H|[]]; discriminate H|intros ? ? ? [H|[]]; discriminate H]. }
  destruct (body tr) as [ts|e] eqn:Hts; simpl.
  2:{ split; [intros [H|[]]; discriminate H|intros ? ? ? [H|[]]; discriminate H]. }
  split; [intros _; eauto|].
  intros key seconds value. split; [eauto|]. revert H.
  destruct (volumes w) as [reason|vr]; simpl.
  { intros [H|[H|[]]]; discriminate H. }
  destruct (reply_ok vr) eqn:Hvr; simpl.
  2:{ intros [H|[H|[]]]; discriminate H. }
  destruct (body vr) as [vs|e] eqn:Hvs; simpl.
  2:{ intros [H|[H|[]]]; discriminate H. }
  intros _. eauto.
Qed.

(** X23. When Redis holds a non-empty text that parses, [GET] answers 200
    with the parsed data, [fromCache] true and the age computed from the
    clock, after a single read of Redis: it fetches nothing and writes
    nothing, so that its answer is the same whatever the two files and the
    Redis write would do. *)
Theorem GET_hit w text cachedData :
  cached w = Ok (Some text) ->
  text <> ""%string ->
  JSON_parse text = Ok cachedData ->
  GET JSON_stringify JSON_parse w
  = (respond (DexData cachedData true
                (Math_round (div (sub (clock w) (lastUpdated cachedData)) (of_Z 1000)))),
     [RedisGet "dex-status-cache"]) /\
  forall traders' volumes' setex',
    GET JSON_stringify JSON_parse
      {| cached := cached w; traders := traders'; volumes := volumes';
         setex := setex'; clock := clock w |}
    = GET JSON_stringify JSON_parse w.
Proof.
  intros Hcached Hne Hparse.
  assert (forall w', cached w' = Ok (Some text) -> clock w' = clock w ->
            GET JSON_stringify JSON_parse w'
            = (respond (DexData cachedData true
                 (Math_round (div (sub (clock w) (lastUpdated cachedData)) (of_Z 1000)))),
               [RedisGet "dex-status-cache"])) as Hget.
  { intros w' Hc Hclock. unfold GET. rewrite Hc. simpl.
    destruct (String.eqb_spec text "") as [E|_]; [contradiction|].
    rewrite Hparse, Hclock. reflexivity. }
  split; [apply Hget; [exact Hcached|reflexivity]|].
  intros traders' volumes' setex'.
  rewrite (Hget w Hcached eq_refl). apply Hget; [exact Hcached|reflexivity].
Qed.

(** X24. The data is handed out only after it has been written: when Redis
    rejects the write, [POST] answers 500 with its fixed error, and so does
    [GET] on an empty cache, also when both files were served. *)
Theorem unwritable_fails w e :
  setex w = Err e ->
  fst (POST JSON_stringify w) = respond_500 (Failed "Failed to refresh cache") /\
  (cached w = Ok None \/ cached w = Ok (Some ""%string) ->
   fst (GET JSON_stringify JSON_parse w)
   = respond_500 (Failed "Failed to fetch Dex Status data")).
Proof.
  intros Hset.
  assert (exists e' done, refresh w = (Err e', done)) as (e' & done & Hfail).
  { destruct (refresh w) as [[data|e'] done] eqn:Hr; [|eauto].
    destruct (refresh_ok_inv _ _ _ Hr) as (_ & _ & _ & _ & [u Hu] & _). congruence. }
  split.
  - unfold POST. rewrite Hfail. reflexivity.
  - intros [Hc|Hc]; unfold GET; rewrite Hc; simpl; rewrite Hfail; reflexivity.
Qed.

End RouteProperties.

Lemma miss_refreshed :
  DexStatus.fetchAndCalculateDexData Traffic.stringify Traffic.miss
  = (Ok {| DexStatus.volumeData := Some Traffic.some_volumes;
           DexStatus.traderStats :=
             Some {| DexStatus.totalUsers := 5; DexStatus.usersInProfit := 2;
                     DexStatus.usersInLoss := 1 |};
           DexStatus.lastUpdated := parseFloat "1700000123456" |},
     [DexStatus.Fetch DexStatus.GITHUB_TRADERS_URL;
      DexStatus.Fetch DexStatus.GITHUB_VOLUME_URL;
      DexStatus.RedisSetex "dex-status-cache" 1800 "snapshot@1700000123456"]).
Proof. vm_compute. reflexivity. Defined.


Lemma refresh_writes_once_witness :
  exists data done,
    DexStatus.fetchAndCalculateDexData Traffic.stringify Traffic.miss = (Ok data, done) /\
    done = [DexStatus.Fetch DexStatus.GITHUB_TRADERS_URL;
            DexStatus.Fetch DexStatus.GITHUB_VOLUME_URL;
            DexStatus.RedisSetex "dex-status-cache" 1800 "snapshot@1700000123456"] /\
    DexStatus.lastUpdated data = parseFloat "1700000123456".
Proof.
  do 2 eexists. split; [exact miss_refreshed|].
  exact (refresh_writes_once Traffic.stringify _ _ _ miss_refreshed).
Defined.

(** A snapshot 123456 ms old is served as 123 seconds old, with the network
    and the Redis write down. *)
Lemma GET_hit_witness :
  DexStatus.GET Traffic.stringify Traffic.parse Traffic.hit
  = (DexStatus.respond (DexStatus.DexData Traffic.stale true (parseFloat "123")),
     [DexStatus.RedisGet "dex-status-cache"]).
Proof.
  refine (eq_trans (proj1 (GET_hit Traffic.stringify Traffic.parse Traffic.hit
                             "snapshot@1700000000000" Traffic.stale eq_refl _ eq_refl)) _).
  - discriminate.
  - vm_compute. reflexivity.
Defined.

Lemma unwritable_fails_witness :
  fst (DexStatus.POST Traffic.stringify Traffic.unwritable)
  = DexStatus.respond_500 (DexStatus.Failed "Failed to refresh cache") /\
  fst (DexStatus.GET Traffic.stringify Traffic.parse Traffic.unwritable)
  = DexStatus.respond_500 (DexStatus.Failed "Failed to fetch Dex Status data").
Proof.
  destruct (unwritable_fails Traffic.stringify Traffic.parse Traffic.unwritable
              (Failure "redis down") eq_refl) as [Hpost Hget].
  split; [exact Hpost|]. apply Hget. left. reflexivity.
Defined.
